(** * MPCD integrator (hoomd/mpcd/integrate.py): a shallow embedding

    The Python class [integrator] is glue between the simulation context
    ([hoomd.context]) and a native integrator object.  The embedding keeps
    that shape: the interpreter state is the Python object [self] together
    with the simulation context, which owns the store of native integrator
    objects; every method of the class is a computation in a state and
    exception monad in which the state survives a raised exception, as it
    does in Python. *)

From Stdlib Require Import ZArith String List Bool.
From Stdlib Require Import Floats.PrimFloat Floats.SpecFloat Floats.FloatOps.
From stdpp Require Import base option list.
Import ListNotations.

Local Open Scope string_scope.
Local Open Scope Z_scope.

(** ** Python values *)

(** The values an argument of the class can be bound to.  [dt] is documented
    as a float and [period] as an int, and they are typed so below; [aniso]
    is compared against [None] and looked up in a dict, so it ranges over
    Python values. *)
#[warnings="-register-all"]
Inductive pyval : Type :=
| PNone
| PBool (b : bool)
| PInt (z : Z)
| PFloat (f : float)
| PStr (s : string)
| PList (items : list pyval).

Inductive exn : Type :=
| RuntimeError (text : string)
| TypeError (text : string)
| KeyError (key : pyval)
| AttributeError (text : string).

(** The spec's error taxonomy. *)
Inductive error_kind : Type :=
| NotInitializedError
| InvalidArgument
| OtherError.

Definition nl : string := String (Ascii.ascii_of_nat 10) EmptyString.

Definition mpcd_not_initialized : string := "MPCD system not initialized".
Definition integrator_not_active : string := "integrator not initialized".
Definition aniso_mode_error : string := "Error setting anisotropic integration mode.".

(** Which of the spec's errors a raised exception stands for: the module
    raises [RuntimeError] throughout and the text tells them apart. *)
Definition kind_of (e : exn) : error_kind :=
  match e with
  | RuntimeError text =>
      if String.eqb text mpcd_not_initialized then NotInitializedError
      else if String.eqb text integrator_not_active then NotInitializedError
      else if String.eqb text aniso_mode_error then InvalidArgument
      else OtherError
  | _ => OtherError
  end.

(** [bool] is a subclass of [int]: [True == 1] and [False == 0]. *)
Definition Z_of_bool (b : bool) : Z := if b then 1 else 0.

(** Exact comparison of a float with an integer, as Python does it: the
    float is finite and its value is that integer. *)
Definition float_eq_Z (f : float) (z : Z) : bool :=
  match Prim2SF f with
  | S754_zero _ => z =? 0
  | S754_finite s m e =>
      let v := if s then Z.neg m else Z.pos m in
      if 0 <=? e then z =? v * 2 ^ e
      else (v mod 2 ^ (- e) =? 0) && (z =? v / 2 ^ (- e))
  | _ => false
  end.

(** Python's [==] on the values above, as far as a dict lookup uses it
    (lists never reach it: they are not hashable). *)
Definition py_eq (a b : pyval) : bool :=
  match a, b with
  | PNone, PNone => true
  | PBool x, PBool y => Bool.eqb x y
  | PBool x, PInt z | PInt z, PBool x => z =? Z_of_bool x
  | PBool x, PFloat f | PFloat f, PBool x => float_eq_Z f (Z_of_bool x)
  | PInt x, PInt y => x =? y
  | PInt z, PFloat f | PFloat f, PInt z => float_eq_Z f z
  | PFloat x, PFloat y => PrimFloat.eqb x y
  | PStr x, PStr y => String.eqb x y
  | _, _ => false
  end.

Definition hashable (v : pyval) : bool :=
  match v with
  | PList _ => false
  | _ => true
  end.

Inductive outcome (A : Type) : Type :=
| Returns (a : A)
| Raises (e : exn).
Arguments Returns {A} a.
Arguments Raises {A} e.

(** A dict as the ordered list of its items.  Equal keys have equal hashes
    for the builtin types above, so a key is found exactly when some stored
    key is [==] to it. *)
Definition dict (V : Type) : Type := list (pyval * V).

(** [key in d]: hashing the key comes first and fails on a list. *)
Definition dict_contains {V : Type} (d : dict V) (key : pyval) : outcome bool :=
  if hashable key then Returns (existsb (fun kv => py_eq (fst kv) key) d)
  else Raises (TypeError "unhashable type: 'list'").

(** [d[key]] *)
Definition dict_getitem {V : Type} (d : dict V) (key : pyval) : outcome V :=
  if hashable key then
    match List.find (fun kv => py_eq (fst kv) key) d with
    | Some kv => Returns (snd kv)
    | None => Raises (KeyError key)
    end
  else Raises (TypeError "unhashable type: 'list'").

(** ** The native side *)

(** [_md.IntegratorAnisotropicMode] *)
Inductive IntegratorAnisotropicMode : Type :=
| Automatic
| Anisotropic
| Isotropic.

(** The two streaming classes of [_mpcd] the constructor chooses between. *)
Inductive stream_class : Type :=
| StreamingMethod
| StreamingMethodGPU.

(** A streaming object is the class and the four constructor arguments of
    lines 64-67: [stream_class(data, timestep, period, -1)]. *)
Record streaming_method : Type := {
  stream_cls : stream_class;
  stream_data : nat;
  stream_timestep : Z;
  stream_period : Z;
  stream_phase : Z
}.

(** Modelled from the spec: the native class [_mpcd.Integrator] is compiled
    code that is not part of src/.  Section 6 of the spec lists what it
    exposes ([setDeltaT], [setAnisotropicMode], [addIntegrationMethod],
    [removeAllIntegrationMethods], [setStreamingMethod],
    [removeStreamingMethod], [setCollisionMethod], [removeCollisionMethod]);
    its state is what those calls set: a time step, an anisotropy mode, an
    ordered method list and one optional strategy of each kind.  A new
    integrator detects anisotropy automatically and has nothing attached. *)
Record Integrator : Type := {
  sysdata : nat;
  deltaT : float;
  mpcd_comm : option nat;
  anisotropic_mode : IntegratorAnisotropicMode;
  methods : list nat;
  streaming : option streaming_method;
  collision : option nat
}.

(** Modelled from the spec: the native constructor [_mpcd.Integrator(data, dt)]
    (line 49): a new engine with the given time step and nothing attached. *)
Definition new_Integrator (data : nat) (dt : float) : Integrator :=
  {| sysdata := data; deltaT := dt; mpcd_comm := None;
     anisotropic_mode := Automatic; methods := [];
     streaming := None; collision := None |}.

(** Modelled from the spec: the native setter of the communicator (line 51);
    it touches no other part of the engine. *)
Definition setMPCDCommunicator (comm : nat) (i : Integrator) : Integrator :=
  {| sysdata := sysdata i; deltaT := deltaT i; mpcd_comm := Some comm;
     anisotropic_mode := anisotropic_mode i; methods := methods i;
     streaming := streaming i; collision := collision i |}.

(** Modelled from the spec: [setDeltaT(value)] of section 6. *)
Definition setDeltaT (dt : float) (i : Integrator) : Integrator :=
  {| sysdata := sysdata i; deltaT := dt; mpcd_comm := mpcd_comm i;
     anisotropic_mode := anisotropic_mode i; methods := methods i;
     streaming := streaming i; collision := collision i |}.

(** Modelled from the spec: [setAnisotropicMode(mode)] of section 6. *)
Definition setAnisotropicMode (mode : IntegratorAnisotropicMode) (i : Integrator) : Integrator :=
  {| sysdata := sysdata i; deltaT := deltaT i; mpcd_comm := mpcd_comm i;
     anisotropic_mode := mode; methods := methods i;
     streaming := streaming i; collision := collision i |}.

(** Modelled from the spec: [removeAllIntegrationMethods()] of section 6
    empties the method list. *)
Definition removeAllIntegrationMethods (i : Integrator) : Integrator :=
  {| sysdata := sysdata i; deltaT := deltaT i; mpcd_comm := mpcd_comm i;
     anisotropic_mode := anisotropic_mode i; methods := [];
     streaming := streaming i; collision := collision i |}.

(** Modelled from the spec: [addIntegrationMethod(ref)] of section 6 appends
    to the method list, which is ordered (section 4.1). *)
Definition addIntegrationMethod (m : nat) (i : Integrator) : Integrator :=
  {| sysdata := sysdata i; deltaT := deltaT i; mpcd_comm := mpcd_comm i;
     anisotropic_mode := anisotropic_mode i; methods := methods i ++ [m];
     streaming := streaming i; collision := collision i |}.

(** Modelled from the spec: [setStreamingMethod(ref)] of section 6. *)
Definition setStreamingMethod (s : streaming_method) (i : Integrator) : Integrator :=
  {| sysdata := sysdata i; deltaT := deltaT i; mpcd_comm := mpcd_comm i;
     anisotropic_mode := anisotropic_mode i; methods := methods i;
     streaming := Some s; collision := collision i |}.

(** Modelled from the spec: [removeStreamingMethod()] of section 6. *)
Definition removeStreamingMethod (i : Integrator) : Integrator :=
  {| sysdata := sysdata i; deltaT := deltaT i; mpcd_comm := mpcd_comm i;
     anisotropic_mode := anisotropic_mode i; methods := methods i;
     streaming := None; collision := collision i |}.

(** Modelled from the spec: [setCollisionMethod(ref)] of section 6. *)
Definition setCollisionMethod (c : nat) (i : Integrator) : Integrator :=
  {| sysdata := sysdata i; deltaT := deltaT i; mpcd_comm := mpcd_comm i;
     anisotropic_mode := anisotropic_mode i; methods := methods i;
     streaming := streaming i; collision := Some c |}.

(** Modelled from the spec: [removeCollisionMethod()] of section 6. *)
Definition removeCollisionMethod (i : Integrator) : Integrator :=
  {| sysdata := sysdata i; deltaT := deltaT i; mpcd_comm := mpcd_comm i;
     anisotropic_mode := anisotropic_mode i; methods := methods i;
     streaming := streaming i; collision := None |}.

(** ** The simulation context *)

(** [hoomd.context.current.mpcd]: the MPCD particle data and, in a
    domain-decomposed run, its communicator. *)
Record mpcd_system : Type := {
  data : nat;
  comm : option nat
}.

(** An entry of [hoomd.context.current.integration_methods]. *)
Record integration_method : Type := {
  cpp_method : nat
}.

(** What [hoomd.context.msg] has been told. *)
Inductive message : Type :=
| error (text : string) (args : list pyval)
| warning (text : string).

(** The part of [hoomd.context] the module reads and writes, with the store
    of native integrators.  A handle is an index into [natives]; the object
    [system.setIntegrator] was given and the one [self.cpp_integrator] names
    are the same store cell. *)
Record context : Type := {
  mpcd : option mpcd_system;
  system_integrator : option nat;
  current_time_step : Z;
  integration_methods : list integration_method;
  cuda_enabled : bool;
  msg : list message;
  natives : list Integrator
}.

Definition with_msg (l : list message) (c : context) : context :=
  {| mpcd := mpcd c; system_integrator := system_integrator c;
     current_time_step := current_time_step c;
     integration_methods := integration_methods c;
     cuda_enabled := cuda_enabled c; msg := l; natives := natives c |}.

Definition with_natives (n : list Integrator) (c : context) : context :=
  {| mpcd := mpcd c; system_integrator := system_integrator c;
     current_time_step := current_time_step c;
     integration_methods := integration_methods c;
     cuda_enabled := cuda_enabled c; msg := msg c; natives := n |}.

Definition with_system_integrator (h : option nat) (c : context) : context :=
  {| mpcd := mpcd c; system_integrator := h;
     current_time_step := current_time_step c;
     integration_methods := integration_methods c;
     cuda_enabled := cuda_enabled c; msg := msg c; natives := natives c |}.

(** ** The Python object *)

(** The attributes of an [integrator] instance.  [cpp_integrator] is [None]
    until line 49 binds it to a native handle. *)
Record integrator : Type := {
  supports_methods : bool;
  dt : float;
  aniso : pyval;
  period : Z;
  metadata_fields : list string;
  cpp_integrator : option nat;
  _stream : option streaming_method;
  _collide : option nat
}.

(** The object [__init__] receives: no attribute of the class is bound yet.
    The placeholders below are overwritten by lines 42-46 before any read. *)
Definition new_object : integrator :=
  {| supports_methods := false; dt := 0%float; aniso := PNone; period := 0;
     metadata_fields := []; cpp_integrator := None;
     _stream := None; _collide := None |}.

Definition with_dt (d : float) (s : integrator) : integrator :=
  {| supports_methods := supports_methods s; dt := d; aniso := aniso s;
     period := period s; metadata_fields := metadata_fields s;
     cpp_integrator := cpp_integrator s;
     _stream := _stream s; _collide := _collide s |}.

Definition with_aniso (a : pyval) (s : integrator) : integrator :=
  {| supports_methods := supports_methods s; dt := dt s; aniso := a;
     period := period s; metadata_fields := metadata_fields s;
     cpp_integrator := cpp_integrator s;
     _stream := _stream s; _collide := _collide s |}.

Definition with_period (p : Z) (s : integrator) : integrator :=
  {| supports_methods := supports_methods s; dt := dt s; aniso := aniso s;
     period := p; metadata_fields := metadata_fields s;
     cpp_integrator := cpp_integrator s;
     _stream := _stream s; _collide := _collide s |}.

Definition with_supports_methods (b : bool) (s : integrator) : integrator :=
  {| supports_methods := b; dt := dt s; aniso := aniso s;
     period := period s; metadata_fields := metadata_fields s;
     cpp_integrator := cpp_integrator s;
     _stream := _stream s; _collide := _collide s |}.

Definition with_metadata_fields (l : list string) (s : integrator) : integrator :=
  {| supports_methods := supports_methods s; dt := dt s; aniso := aniso s;
     period := period s; metadata_fields := l;
     cpp_integrator := cpp_integrator s;
     _stream := _stream s; _collide := _collide s |}.

Definition with_cpp_integrator (h : option nat) (s : integrator) : integrator :=
  {| supports_methods := supports_methods s; dt := dt s; aniso := aniso s;
     period := period s; metadata_fields := metadata_fields s;
     cpp_integrator := h;
     _stream := _stream s; _collide := _collide s |}.

Definition with_stream (x : option streaming_method) (s : integrator) : integrator :=
  {| supports_methods := supports_methods s; dt := dt s; aniso := aniso s;
     period := period s; metadata_fields := metadata_fields s;
     cpp_integrator := cpp_integrator s;
     _stream := x; _collide := _collide s |}.

Definition with_collide (x : option nat) (s : integrator) : integrator :=
  {| supports_methods := supports_methods s; dt := dt s; aniso := aniso s;
     period := period s; metadata_fields := metadata_fields s;
     cpp_integrator := cpp_integrator s;
     _stream := _stream s; _collide := x |}.

(** ** The interpreter state and its monad *)

Record state : Type := {
  self : integrator;
  hoomd : context
}.

(** A computation may change the state and then either return or raise; what
    it changed stays changed when it raises. *)
Definition M (A : Type) : Type := state -> state * outcome A.

Definition ret {A : Type} (a : A) : M A := fun st => (st, Returns a).

Definition raise {A : Type} (e : exn) : M A := fun st => (st, Raises e).

Definition bind {A B : Type} (c : M A) (k : A -> M B) : M B :=
  fun st =>
    match c st with
    | (st', Returns a) => k a st'
    | (st', Raises e) => (st', Raises e)
    end.

Declare Scope py_scope.
Delimit Scope py_scope with py.
Bind Scope py_scope with M.

Notation "x <- c1 ;; c2" := (bind c1 (fun x => c2))
  (at level 100, c1 at next level, c2 at level 200, right associativity) : py_scope.
Notation "c1 ;; c2" := (bind c1 (fun _ => c2))
  (at level 100, c2 at level 200, right associativity) : py_scope.

Local Open Scope py_scope.

Definition get_self : M integrator := fun st => (st, Returns (self st)).

Definition get_hoomd : M context := fun st => (st, Returns (hoomd st)).

Definition set_attr (f : integrator -> integrator) : M unit :=
  fun st => ({| self := f (self st); hoomd := hoomd st |}, Returns tt).

Definition set_hoomd (f : context -> context) : M unit :=
  fun st => ({| self := self st; hoomd := f (hoomd st) |}, Returns tt).

(** The value of an expression that may raise. *)
Definition eval {A : Type} (o : outcome A) : M A := fun st => (st, o).

(** [for x in l: body(x)] *)
Fixpoint for_each {A : Type} (l : list A) (body : A -> M unit) : M unit :=
  match l with
  | [] => ret tt
  | x :: rest => body x ;; for_each rest body
  end.

(** [hoomd.context.msg.error(...)] and [hoomd.context.msg.warning(...)] *)
Definition msg_error (text : string) (args : list pyval) : M unit :=
  set_hoomd (fun c => with_msg (msg c ++ [error text args]) c).

Definition msg_warning (text : string) : M unit :=
  set_hoomd (fun c => with_msg (msg c ++ [warning text]) c).

(** Modelled from the spec: [hoomd.util.print_status_line], [quiet_status]
    and [unquiet_status] are not part of src/; the spec sets the status-line
    plumbing aside (section 1), and none of it touches the controller, the
    context fields above or the native store. *)
Definition print_status_line : M unit := ret tt.

(** Modelled from the spec: [hoomd.util.quiet_status], as above. *)
Definition quiet_status : M unit := ret tt.

(** Modelled from the spec: [hoomd.util.unquiet_status], as above. *)
Definition unquiet_status : M unit := ret tt.

(** A native constructor call: the new object takes the next free cell of
    the store and its handle is the value. *)
Definition new_native (i : Integrator) : M nat :=
  c <- get_hoomd ;;
  set_hoomd (with_natives (natives c ++ [i])) ;;
  ret (length (natives c)).

(** A call [self.cpp_integrator.f(...)]: the native object behind the handle
    is updated in place; on [None] the attribute lookup raises. *)
Definition cpp_call (f : Integrator -> Integrator) : M unit :=
  s <- get_self ;;
  match cpp_integrator s with
  | Some h => set_hoomd (fun c => with_natives (alter f h (natives c)) c)
  | None => raise (AttributeError "'NoneType' object has no attribute")
  end.

(** Modelled from the spec: [_integrator.__init__] of the base class
    [hoomd.integrate._integrator] is not part of src/.  Construction starts
    from the Uninitialized controller (section 4.1), which holds no native
    integrator. *)
Definition _integrator__init__ : M unit :=
  set_attr (with_cpp_integrator None).

(** Modelled from the spec: [check_initialization] of the base class
    [hoomd.integrate._integrator] is not part of src/.  Section 4.1: every
    mutating operation but construction requires the Active state and fails
    with NotInitializedError outside it.  The controller is Active while it
    holds a native integrator, which line 49 binds. *)
Definition check_initialization : M unit :=
  s <- get_self ;;
  match cpp_integrator s with
  | Some _ => ret tt
  | None => raise (RuntimeError integrator_not_active)
  end.

(** ** The class [integrator] *)

(** Lines 72-75. *)
Definition _aniso_modes : dict IntegratorAnisotropicMode :=
  [ (PNone, Automatic);
    (PBool true, Anisotropic);
    (PBool false, Isotropic) ].

Definition is_None (v : pyval) : bool :=
  match v with
  | PNone => true
  | _ => false
  end.

(** Lines 77-105.  [dt=None] is [None] here; a given [dt] is a float. *)
Definition set_params (dt : option float) (aniso : pyval) : M unit :=
  print_status_line ;;
  check_initialization ;;
  (* change the parameters *)
  match dt with
   | Some d =>
       set_attr (with_dt d) ;;
       cpp_call (setDeltaT d)
   | None => ret tt
   end ;;
  if is_None aniso then ret tt
  else
    known <- eval (dict_contains _aniso_modes aniso) ;;
    anisoMode <-
      (if known : bool then eval (dict_getitem _aniso_modes aniso)
       else
         msg_error ("mpcd.integrate: unknown anisotropic mode {}." ++ nl) [aniso] ;;
         raise (RuntimeError aniso_mode_error)) ;;
    set_attr (with_aniso aniso) ;;
    cpp_call (setAnisotropicMode anisoMode).

(** Lines 107-126. *)
Definition update_methods : M unit :=
  check_initialization ;;
  (* update the integration methods that are set *)
  cpp_call removeAllIntegrationMethods ;;
  c <- get_hoomd ;;
  for_each (integration_methods c)
    (fun m => cpp_call (addIntegrationMethod (cpp_method m))) ;;
  (* ensure that the streaming and collision methods are up to date *)
  s <- get_self ;;
  match _stream s with
   | Some st => cpp_call (setStreamingMethod st)
   | None =>
       msg_warning ("Running mpcd without a streaming method!" ++ nl) ;;
       cpp_call removeStreamingMethod
   end ;;
  match _collide s with
  | Some co => cpp_call (setCollisionMethod co)
  | None =>
      msg_warning ("Running mpcd without a collision method!" ++ nl) ;;
      cpp_call removeCollisionMethod
  end.

(** Lines 34-70.  The arguments [dt], [period] and [aniso] are primed here
    to keep them apart from the attributes of the same names. *)
Definition __init__ (dt' : float) (period' : Z) (aniso' : pyval) : M unit :=
  c <- get_hoomd ;;
  (* check system is initialized *)
  match mpcd c with
  | None =>
      msg_error ("mpcd.integrate: an MPCD system must be initialized before the integrator" ++ nl) [] ;;
      raise (RuntimeError mpcd_not_initialized)
  | Some sys =>
      _integrator__init__ ;;
      set_attr (with_supports_methods true) ;;
      set_attr (with_dt dt') ;;
      set_attr (with_aniso aniso') ;;
      set_attr (with_period period') ;;
      set_attr (with_metadata_fields ["dt"; "aniso"; "period"]) ;;
      (* configure C++ integrator *)
      s <- get_self ;;
      h <- new_native (new_Integrator (data sys) (dt s)) ;;
      set_attr (with_cpp_integrator (Some h)) ;;
      match comm sys with
       | Some co => cpp_call (setMPCDCommunicator co)
       | None => ret tt
       end ;;
      s <- get_self ;;
      set_hoomd (with_system_integrator (cpp_integrator s)) ;;
      (if is_None (aniso s) then ret tt
       else
         quiet_status ;;
         set_params None aniso' ;;
         unquiet_status) ;;
      (* create the base streaming class *)
      c <- get_hoomd ;;
      let stream_class :=
        if negb (cuda_enabled c) then StreamingMethod else StreamingMethodGPU in
      s <- get_self ;;
      set_attr (with_stream (Some
        {| stream_cls := stream_class;
           stream_data := data sys;
           stream_timestep := current_time_step c;
           stream_period := period s;
           stream_phase := -1 |})) ;;
      (* default collision method is None to be set by other methods *)
      set_attr (with_collide None)
  end.

(** The expression [integrator(dt, period, aniso)]: a new object is
    initialised and, unless [__init__] raised, is the value. *)
Definition construct (dt' : float) (period' : Z) (aniso' : pyval) (c : context)
  : context * outcome integrator :=
  match __init__ dt' period' aniso' {| self := new_object; hoomd := c |} with
  | (st, Returns _) => (hoomd st, Returns (self st))
  | (st, Raises e) => (hoomd st, Raises e)
  end.

(** ** Vocabulary of the statements *)

(** The controller is Active: it holds a native integrator. *)
Definition active (st : state) (h : nat) : Prop :=
  cpp_integrator (self st) = Some h.

(** The engine a handle names, if any. *)
Definition engine (c : context) (h : nat) : option Integrator :=
  natives c !! h.

(** What a reconciliation leaves of an engine: everything but the method
    list and the two strategies, which are replaced. *)
Definition reconciled (ms : list nat) (s : option streaming_method)
    (co : option nat) (i : Integrator) : Integrator :=
  {| sysdata := sysdata i; deltaT := deltaT i; mpcd_comm := mpcd_comm i;
     anisotropic_mode := anisotropic_mode i; methods := ms;
     streaming := s; collision := co |}.

Definition add_methods (ms : list nat) (i : Integrator) : Integrator :=
  {| sysdata := sysdata i; deltaT := deltaT i; mpcd_comm := mpcd_comm i;
     anisotropic_mode := anisotropic_mode i; methods := methods i ++ ms;
     streaming := streaming i; collision := collision i |}.

Definition streaming_warning : message :=
  warning ("Running mpcd without a streaming method!" ++ nl).

Definition collision_warning : message :=
  warning ("Running mpcd without a collision method!" ++ nl).

(** The warnings one reconciliation emits, in order. *)
Definition missing_warnings (s : integrator) : list message :=
  match _stream s with Some _ => [] | None => [streaming_warning] end ++
  match _collide s with Some _ => [] | None => [collision_warning] end.

(** The anisotropy argument is one [set_params] accepts: a key of the mode
    table. *)
Definition recognized (a : pyval) : Prop :=
  dict_contains _aniso_modes a = Returns true.

(** The anisotropy argument is hashable and is no key of the mode table. *)
Definition unrecognized (a : pyval) : Prop :=
  dict_contains _aniso_modes a = Returns false.

(** The state [set_params] has reached after lines 94-96, for a controller
    holding the native handle [h]. *)
Definition after_dt (dt : option float) (h : nat) (st : state) : state :=
  match dt with
  | Some d =>
      {| self := with_dt d (self st);
         hoomd := with_natives (alter (setDeltaT d) h (natives (hoomd st))) (hoomd st) |}
  | None => st
  end.

Definition unknown_mode_message (a : pyval) : message :=
  error ("mpcd.integrate: unknown anisotropic mode {}." ++ nl) [a].

(** The engine [__init__] has built when it reaches line 54. *)
Definition built_engine (sys : mpcd_system) (d : float) : Integrator :=
  match comm sys with
  | Some co => setMPCDCommunicator co (new_Integrator (data sys) d)
  | None => new_Integrator (data sys) d
  end.

(** The context after a native integrator [eng] has been created and
    installed as the system's integrator (lines 49-52). *)
Definition registered (c : context) (eng : Integrator) : context :=
  {| mpcd := mpcd c;
     system_integrator := Some (length (natives c));
     current_time_step := current_time_step c;
     integration_methods := integration_methods c;
     cuda_enabled := cuda_enabled c;
     msg := msg c;
     natives := natives c ++ [eng] |}.

Definition mpcd_missing_message : message :=
  error ("mpcd.integrate: an MPCD system must be initialized before the integrator" ++ nl) [].

(** The default streaming object of lines 60-67. *)
Definition default_stream (c : context) (sys : mpcd_system) (p : Z) : streaming_method :=
  {| stream_cls := if cuda_enabled c then StreamingMethodGPU else StreamingMethod;
     stream_data := data sys;
     stream_timestep := current_time_step c;
     stream_period := p;
     stream_phase := -1 |}.

(** The state [__init__] has reached after line 52, on a new object. *)
Definition configured (dt' : float) (period' : Z) (aniso' : pyval)
    (c : context) (sys : mpcd_system) : state :=
  {| self :=
       {| supports_methods := true; dt := dt'; aniso := aniso'; period := period';
          metadata_fields := ["dt"; "aniso"; "period"];
          cpp_integrator := Some (length (natives c));
          _stream := None; _collide := None |};
     hoomd :=
       {| mpcd := mpcd c;
          system_integrator := Some (length (natives c));
          current_time_step := current_time_step c;
          integration_methods := integration_methods c;
          cuda_enabled := cuda_enabled c;
          msg := msg c;
          natives := natives c ++ [built_engine sys dt'] |} |}.

(** The object a successful construction yields. *)
Definition constructed_object (dt' : float) (period' : Z) (aniso' : pyval)
    (c : context) (sys : mpcd_system) : integrator :=
  {| supports_methods := true; dt := dt'; aniso := aniso'; period := period';
     metadata_fields := ["dt"; "aniso"; "period"];
     cpp_integrator := Some (length (natives c));
     _stream := Some (default_stream c sys period');
     _collide := None |}.

(** ** Sample configurations *)

Definition sample_context : context :=
  {| mpcd := Some {| data := 7%nat; comm := None |};
     system_integrator := None;
     current_time_step := 5;
     integration_methods := [ {| cpp_method := 3%nat |}; {| cpp_method := 1%nat |} ];
     cuda_enabled := false;
     msg := [];
     natives := [] |}.


(** The state after [integrator(dt=0.5, period=1, aniso=True)] in
    [sample_context]. *)
Definition sample_engine : Integrator :=
  {| sysdata := 7%nat; deltaT := 0.5%float; mpcd_comm := None;
     anisotropic_mode := Anisotropic; methods := [];
     streaming := None; collision := None |}.

Definition sample_state : state :=
  {| self :=
       {| supports_methods := true; dt := 0.5%float; aniso := PBool true;
          period := 1; metadata_fields := ["dt"; "aniso"; "period"];
          cpp_integrator := Some 0%nat;
          _stream := Some (default_stream sample_context {| data := 7%nat; comm := None |} 1);
          _collide := None |};
     hoomd :=
       {| mpcd := Some {| data := 7%nat; comm := None |};
          system_integrator := Some 0%nat;
          current_time_step := 5;
          integration_methods := [ {| cpp_method := 3%nat |}; {| cpp_method := 1%nat |} ];
          cuda_enabled := false;
          msg := [];
          natives := [sample_engine] |} |}.

(** An Active controller whose engine is out of date: it still lists the
    methods 9 and 3 and holds a collision strategy, while the context lists
    3 then 1 and the controller has no collision strategy. *)
Definition stale_engine : Integrator :=
  {| sysdata := 7%nat; deltaT := 0.5%float; mpcd_comm := None;
     anisotropic_mode := Anisotropic; methods := [9%nat; 3%nat];
     streaming := None; collision := Some 4%nat |}.

Definition stale_state : state :=
  {| self := self sample_state;
     hoomd := with_natives [stale_engine] (hoomd sample_state) |}.


(** * Properties *)

Example one_is_a_key_of_True :
  dict_getitem _aniso_modes (PFloat 1%float) = Returns Anisotropic.
Proof. reflexivity. Qed.

Example sample_state_is_constructed :
  construct 0.5%float 1 (PBool true) sample_context
  = (hoomd sample_state, Returns (self sample_state)).
Proof. reflexivity. Qed.

(** ** Running the primitives *)

Lemma state_eta (st : state) : {| self := self st; hoomd := hoomd st |} = st.
Proof. destruct st; reflexivity. Qed.

Lemma with_natives_id (c : context) : with_natives (natives c) c = c.
Proof. destruct c; reflexivity. Qed.

Lemma with_natives_twice (l k : list Integrator) (c : context) :
  with_natives l (with_natives k c) = with_natives l c.
Proof. reflexivity. Qed.

Lemma natives_with_natives (l : list Integrator) (c : context) :
  natives (with_natives l c) = l.
Proof. reflexivity. Qed.

Lemma bind_returns {A B : Type} (c : M A) (k : A -> M B) (st st' : state) (a : A) :
  c st = (st', Returns a) -> bind c k st = k a st'.
Proof. unfold bind. intros ->. reflexivity. Qed.

Lemma bind_raises {A B : Type} (c : M A) (k : A -> M B) (st st' : state) (e : exn) :
  c st = (st', Raises e) -> bind c k st = (st', Raises e).
Proof. unfold bind. intros ->. reflexivity. Qed.

(** The attribute and context setters, unfolded to records. *)
Ltac simpl_state :=
  cbn [with_system_integrator with_natives with_msg with_cpp_integrator
       with_metadata_fields with_period with_aniso with_dt
       with_supports_methods with_stream with_collide
       supports_methods dt aniso period metadata_fields cpp_integrator
       _stream _collide mpcd system_integrator current_time_step
       integration_methods cuda_enabled msg natives self hoomd].

(** One statement of a sequence has run and returned. *)
Ltac run_step :=
  etransitivity; [apply bind_returns; reflexivity | cbv beta; simpl_state].

Lemma cpp_call_run (f : Integrator -> Integrator) (st : state) (h : nat) :
  active st h ->
  cpp_call f st =
  ({| self := self st;
      hoomd := with_natives (alter f h (natives (hoomd st))) (hoomd st) |},
   Returns tt).
Proof.
  unfold active, cpp_call, bind, get_self. intros ->. reflexivity.
Qed.

Lemma add_methods_nil (i : Integrator) : add_methods [] i = i.
Proof. destruct i; unfold add_methods; simpl. now rewrite app_nil_r. Qed.

Lemma add_methods_cons (m : nat) (ms : list nat) (i : Integrator) :
  add_methods ms (addIntegrationMethod m i) = add_methods (m :: ms) i.
Proof.
  unfold add_methods, addIntegrationMethod; simpl.
  now rewrite <- app_assoc.
Qed.

(** The loop of lines 112-113 appends the handles of the list, in order. *)
Lemma for_each_add_run (l : list integration_method) :
  forall (st : state) (h : nat),
    active st h ->
    for_each l (fun m => cpp_call (addIntegrationMethod (cpp_method m))) st =
    ({| self := self st;
        hoomd := with_natives
                   (alter (add_methods (map cpp_method l)) h (natives (hoomd st)))
                   (hoomd st) |},
     Returns tt).
Proof.
  induction l as [|m l IH]; intros st h Hact.
  - simpl. unfold ret.
    rewrite (list_alter_id _ _ _ add_methods_nil), with_natives_id, state_eta.
    reflexivity.
  - simpl for_each. unfold bind at 1.
    rewrite (cpp_call_run _ st h Hact).
    rewrite (IH _ h) by exact Hact.
    cbn [self hoomd].
    rewrite with_natives_twice, natives_with_natives, list_alter_alter_eq.
    f_equal. f_equal. f_equal.
    apply list_alter_ext; [|reflexivity].
    intros x _. apply add_methods_cons.
Qed.

(** ** Reconciliation in closed form *)

(** The context [update_methods] leaves behind for an Active controller. *)
Lemma update_methods_run (st : state) (h : nat) :
  active st h ->
  update_methods st =
  ({| self := self st;
      hoomd :=
        {| mpcd := mpcd (hoomd st);
           system_integrator := system_integrator (hoomd st);
           current_time_step := current_time_step (hoomd st);
           integration_methods := integration_methods (hoomd st);
           cuda_enabled := cuda_enabled (hoomd st);
           msg := msg (hoomd st) ++ missing_warnings (self st);
           natives :=
             alter (reconciled (map cpp_method (integration_methods (hoomd st)))
                               (_stream (self st)) (_collide (self st)))
                   h (natives (hoomd st)) |} |},
   Returns tt).
Proof.
  intros Hact. pose proof Hact as Hh. unfold active in Hh.
  unfold update_methods, check_initialization.
  unfold bind at 1. unfold bind at 1. unfold get_self at 1. rewrite Hh.
  unfold ret at 1.
  unfold bind at 1. rewrite (cpp_call_run _ st h Hact).
  unfold bind at 1. unfold get_hoomd at 1.
  unfold bind at 1. cbn [self hoomd].
  rewrite (for_each_add_run _ _ h) by exact Hact.
  cbn [self hoomd].
  rewrite with_natives_twice, natives_with_natives, list_alter_alter_eq.
  unfold bind at 1. unfold get_self at 1. cbn [self hoomd].
  unfold missing_warnings.
  destruct st as [s c]; cbn [self hoomd] in *.
  destruct (_stream s) as [sm|], (_collide s) as [co|];
    unfold bind, msg_warning, set_hoomd; cbn [self hoomd];
    repeat (erewrite cpp_call_run by exact Hact; cbn [self hoomd]);
    unfold with_natives, with_msg; cbn;
    rewrite ?list_alter_alter_eq;
    (f_equal; f_equal; f_equal;
     try (apply list_alter_ext; [intros [] _|]; reflexivity);
     rewrite <- ?app_assoc, ?app_nil_r; reflexivity).
Qed.

Lemma update_methods_inactive (st : state) :
  cpp_integrator (self st) = None ->
  update_methods st = (st, Raises (RuntimeError integrator_not_active)).
Proof.
  intros H. unfold update_methods, check_initialization, bind, get_self.
  rewrite H. reflexivity.
Qed.

(** ** The claims about [update_methods] *)

(** C1: for every ordered list of active methods, [update_methods] on an
    Active controller returns and leaves the engine's method list equal to
    the handles of that list, in the list's order, whatever the engine
    listed before. *)
Theorem update_methods_mirrors_active_methods
    (st : state) (h : nat) (eng : Integrator) :
  active st h ->
  engine (hoomd st) h = Some eng ->
  exists st' eng',
    update_methods st = (st', Returns tt) /\
    engine (hoomd st') h = Some eng' /\
    methods eng' = map cpp_method (integration_methods (hoomd st)).
Proof.
  intros Hact Heng. unfold engine in *.
  rewrite (update_methods_run st h Hact).
  eexists _, _. split; [reflexivity|]. cbn [hoomd natives].
  rewrite list_lookup_alter_eq, Heng. split; reflexivity.
Qed.

Lemma update_methods_mirrors_active_methods_witness :
  active stale_state 0 /\
  engine (hoomd stale_state) 0 = Some stale_engine /\
  exists st' eng',
    update_methods stale_state = (st', Returns tt) /\
    engine (hoomd st') 0 = Some eng' /\
    methods eng' = [3%nat; 1%nat].
Proof.
  split; [reflexivity|]. split; [reflexivity|].
  apply (update_methods_mirrors_active_methods stale_state 0 stale_engine);
    reflexivity.
Defined.

(** C5: [update_methods] on an Active controller never raises; afterwards
    the engine's streaming strategy is the controller's streaming slot
    (pushed when occupied, detached when empty), likewise for collision, and
    the messages emitted are exactly a streaming warning when the streaming
    slot is empty followed by a collision warning when the collision slot is
    empty. *)
Theorem update_methods_pushes_or_detaches
    (st : state) (h : nat) (eng : Integrator) :
  active st h ->
  engine (hoomd st) h = Some eng ->
  exists st' eng',
    update_methods st = (st', Returns tt) /\
    engine (hoomd st') h = Some eng' /\
    streaming eng' = _stream (self st) /\
    collision eng' = _collide (self st) /\
    msg (hoomd st') =
      (msg (hoomd st)
       ++ match _stream (self st) with
          | Some _ => []
          | None => [streaming_warning]
          end
       ++ match _collide (self st) with
          | Some _ => []
          | None => [collision_warning]
          end)%list.
Proof.
  intros Hact Heng. unfold engine in *.
  rewrite (update_methods_run st h Hact).
  eexists _, _. split; [reflexivity|]. cbn [hoomd natives msg].
  rewrite list_lookup_alter_eq, Heng. repeat split; reflexivity.
Qed.

Lemma update_methods_pushes_or_detaches_witness :
  active stale_state 0 /\
  engine (hoomd stale_state) 0 = Some stale_engine /\
  exists st' eng',
    update_methods stale_state = (st', Returns tt) /\
    engine (hoomd st') 0 = Some eng' /\
    streaming eng' = _stream (self stale_state) /\
    collision eng' = None /\
    msg (hoomd st') = [collision_warning].
Proof.
  split; [reflexivity|]. split; [reflexivity|].
  apply (update_methods_pushes_or_detaches stale_state 0 stale_engine);
    reflexivity.
Defined.

(** C7: reconciling twice in a row leaves the native store, the system's
    integrator and the controller exactly as reconciling once does, with the
    same outcome; in particular the engine of an Active controller lists the
    active methods once each after the second call.  This holds in every
    state, Active or not. *)
Theorem update_methods_idempotent (st : state) :
  let once := fst (update_methods st) in
  let twice := fst (update_methods once) in
  natives (hoomd twice) = natives (hoomd once) /\
  system_integrator (hoomd twice) = system_integrator (hoomd once) /\
  self twice = self once /\
  snd (update_methods once) = snd (update_methods st) /\
  forall (h : nat) (eng : Integrator),
    active st h ->
    engine (hoomd twice) h = Some eng ->
    methods eng = map cpp_method (integration_methods (hoomd st)).
Proof.
  cbv zeta.
  destruct (cpp_integrator (self st)) as [h|] eqn:Hh.
  - rewrite (update_methods_run st h Hh). cbn [fst snd].
    rewrite (update_methods_run _ h) by exact Hh.
    cbn [fst snd self hoomd natives system_integrator integration_methods].
    rewrite list_alter_alter_eq.
    assert (Heq : forall l : list Integrator,
      alter (reconciled (map cpp_method (integration_methods (hoomd st)))
                        (_stream (self st)) (_collide (self st))
             ∘ reconciled (map cpp_method (integration_methods (hoomd st)))
                          (_stream (self st)) (_collide (self st))) h l
      = alter (reconciled (map cpp_method (integration_methods (hoomd st)))
                          (_stream (self st)) (_collide (self st))) h l).
    { intros l. apply list_alter_ext; [intros x _|]; reflexivity. }
    unfold engine; cbn [hoomd natives]. rewrite Heq.
    do 4 (split; [reflexivity|]).
    intros h' eng Hact Heng. unfold active in Hact.
    rewrite Hh in Hact. injection Hact as <-.
    rewrite list_lookup_alter_eq in Heng.
    destruct (natives (hoomd st) !! h); [|discriminate].
    injection Heng as <-. reflexivity.
  - rewrite (update_methods_inactive st Hh). cbn [fst snd].
    rewrite (update_methods_inactive st Hh). cbn [fst snd].
    do 4 (split; [reflexivity|]).
    intros h' eng Hact. unfold active in Hact. congruence.
Qed.

Example update_methods_twice_on_stale_state :
  methods <$> engine (hoomd (fst (update_methods (fst (update_methods stale_state))))) 0
  = Some [3%nat; 1%nat].
Proof. reflexivity. Qed.

(** ** [set_params] case by case *)

Lemma set_params_inactive (dt : option float) (a : pyval) (st : state) :
  cpp_integrator (self st) = None ->
  set_params dt a st = (st, Raises (RuntimeError integrator_not_active)).
Proof.
  intros H.
  unfold set_params, print_status_line, check_initialization, bind, ret, get_self.
  rewrite H. reflexivity.
Qed.

(** Lines 90-96: the checks pass and the time step, if given, is stored and
    pushed. *)
Lemma set_params_dt_run (dt : option float) (a : pyval) (st : state) (h : nat) :
  active st h ->
  set_params dt a st =
  (if is_None a then ret tt
   else
     known <- eval (dict_contains _aniso_modes a) ;;
     anisoMode <-
       (if known : bool then eval (dict_getitem _aniso_modes a)
        else
          msg_error ("mpcd.integrate: unknown anisotropic mode {}." ++ nl) [a] ;;
          raise (RuntimeError aniso_mode_error)) ;;
     set_attr (with_aniso a) ;;
     cpp_call (setAnisotropicMode anisoMode)) (after_dt dt h st).
Proof.
  intros Hact. pose proof Hact as Hh. unfold active in Hh.
  unfold set_params, print_status_line, check_initialization.
  unfold bind at 1. unfold ret at 1.
  unfold bind at 1. unfold bind at 1. unfold get_self at 1. rewrite Hh.
  unfold ret at 1. unfold bind at 1.
  destruct dt as [d|]; cbn [after_dt].
  - unfold bind at 1. unfold set_attr at 1.
    erewrite cpp_call_run by exact Hh. reflexivity.
  - reflexivity.
Qed.

Lemma active_after_dt (dt : option float) (h : nat) (st : state) :
  active st h -> active (after_dt dt h st) h.
Proof. destruct dt; intros H; exact H. Qed.

Lemma set_params_None_run (dt : option float) (st : state) (h : nat) :
  active st h ->
  set_params dt PNone st = (after_dt dt h st, Returns tt).
Proof. intros Hact. rewrite (set_params_dt_run dt PNone st h Hact). reflexivity. Qed.

Lemma unrecognized_not_None (a : pyval) : unrecognized a -> is_None a = false.
Proof. destruct a; [discriminate | reflexivity ..]. Qed.

Lemma set_params_unrecognized_run (dt : option float) (a : pyval) (st : state) (h : nat) :
  active st h ->
  unrecognized a ->
  set_params dt a st =
  ({| self := self (after_dt dt h st);
      hoomd := with_msg (msg (hoomd (after_dt dt h st)) ++ [unknown_mode_message a])
                        (hoomd (after_dt dt h st)) |},
   Raises (RuntimeError aniso_mode_error)).
Proof.
  intros Hact Hun. rewrite (set_params_dt_run dt a st h Hact).
  rewrite (unrecognized_not_None a Hun).
  unfold bind at 1. unfold eval at 1. rewrite Hun. reflexivity.
Qed.

Lemma set_params_unhashable_run (dt : option float) (a : pyval) (st : state) (h : nat) :
  active st h ->
  hashable a = false ->
  set_params dt a st =
  (after_dt dt h st, Raises (TypeError "unhashable type: 'list'")).
Proof.
  intros Hact Hun. rewrite (set_params_dt_run dt a st h Hact).
  destruct a; try discriminate. reflexivity.
Qed.

Lemma set_params_recognized_run (dt : option float) (a : pyval) (st : state)
    (h : nat) (mode : IntegratorAnisotropicMode) :
  active st h ->
  is_None a = false ->
  recognized a ->
  dict_getitem _aniso_modes a = Returns mode ->
  set_params dt a st =
  ({| self := with_aniso a (self (after_dt dt h st));
      hoomd := with_natives
                 (alter (setAnisotropicMode mode) h (natives (hoomd (after_dt dt h st))))
                 (hoomd (after_dt dt h st)) |},
   Returns tt).
Proof.
  intros Hact Hnn Hrec Hget. rewrite (set_params_dt_run dt a st h Hact), Hnn.
  unfold bind at 1. unfold eval at 1. rewrite Hrec.
  unfold bind at 1. unfold eval at 1. rewrite Hget.
  unfold bind at 1. unfold set_attr at 1.
  erewrite cpp_call_run; [reflexivity|].
  apply (active_after_dt dt h st Hact).
Qed.

(** A key of the mode table other than [None] stands for a mode other than
    [Automatic]. *)
Lemma recognized_mode (a : pyval) :
  recognized a ->
  is_None a = false ->
  exists mode, dict_getitem _aniso_modes a = Returns mode /\ mode <> Automatic.
Proof.
  unfold recognized, dict_contains, dict_getitem.
  destruct (hashable a); [|discriminate].
  intros Hin Hnn.
  assert (Hnone : py_eq PNone a = false) by (destruct a; [discriminate | reflexivity ..]).
  cbn [_aniso_modes existsb List.find fst snd] in *. rewrite Hnone in *.
  destruct (py_eq (PBool true) a).
  - eexists; split; [reflexivity | discriminate].
  - destruct (py_eq (PBool false) a).
    + eexists; split; [reflexivity | discriminate].
    + discriminate.
Qed.

(** What a lookup in the mode table can come to. *)
Lemma aniso_cases (a : pyval) :
  a = PNone \/ hashable a = false \/ unrecognized a \/
  (is_None a = false /\ recognized a).
Proof.
  destruct a; [left; reflexivity | .. ].
  5: right; left; reflexivity.
  all: right; right; unfold unrecognized, recognized, dict_contains;
    cbn [hashable];
    match goal with
    | |- context [existsb ?f ?l] => destruct (existsb f l)
    end; [right; split; reflexivity | left; reflexivity].
Qed.

(** ** Construction in closed form *)

Lemma alter_last (f : Integrator -> Integrator) (l : list Integrator) (x : Integrator) :
  alter f (length l) (l ++ [x])%list = (l ++ [f x])%list.
Proof.
  replace (length l) with (length l + 0)%nat by apply Nat.add_0_r.
  rewrite alter_app_r. reflexivity.
Qed.

Lemma lookup_last (l : list Integrator) (x : Integrator) :
  (l ++ [x])%list !! length l = Some x.
Proof.
  rewrite lookup_app_r by reflexivity.
  replace (length l - length l)%nat with 0%nat by (symmetry; apply Nat.sub_diag).
  reflexivity.
Qed.

Lemma init_run (dt' : float) (period' : Z) (aniso' : pyval)
    (c : context) (sys : mpcd_system) :
  mpcd c = Some sys ->
  __init__ dt' period' aniso' {| self := new_object; hoomd := c |} =
  ((if is_None aniso' then ret tt
    else
      quiet_status ;;
      set_params None aniso' ;;
      unquiet_status) ;;
   c <- get_hoomd ;;
   let stream_class :=
     if negb (cuda_enabled c) then StreamingMethod else StreamingMethodGPU in
   s <- get_self ;;
   set_attr (with_stream (Some
     {| stream_cls := stream_class;
        stream_data := data sys;
        stream_timestep := current_time_step c;
        stream_period := period s;
        stream_phase := -1 |})) ;;
   set_attr (with_collide None)) (configured dt' period' aniso' c sys).
Proof.
  intros Hm. unfold __init__, new_object.
  run_step. rewrite Hm.
  do 6 run_step. run_step. run_step. run_step.
  destruct (comm sys) as [co|] eqn:Hc.
  - run_step. run_step. run_step. simpl_state.
    rewrite alter_last. unfold configured, built_engine. rewrite Hc. reflexivity.
  - run_step. run_step. run_step. simpl_state.
    unfold configured, built_engine. rewrite Hc. reflexivity.
Qed.

Lemma active_configured (dt' : float) (period' : Z) (aniso' : pyval)
    (c : context) (sys : mpcd_system) :
  active (configured dt' period' aniso' c sys) (length (natives c)).
Proof. reflexivity. Qed.

Lemma construct_uninitialized_run (dt' : float) (period' : Z) (aniso' : pyval)
    (c : context) :
  mpcd c = None ->
  construct dt' period' aniso' c =
  (with_msg (msg c ++ [mpcd_missing_message]) c,
   Raises (RuntimeError mpcd_not_initialized)).
Proof.
  intros Hm. unfold construct, __init__, bind, get_hoomd. cbn [hoomd].
  rewrite Hm. reflexivity.
Qed.

(** The last lines of [__init__], 59-70, on the state line 57 has left. *)
Lemma init_tail_run (sys : mpcd_system) (st : state) :
  (c <- get_hoomd ;;
   let stream_class :=
     if negb (cuda_enabled c) then StreamingMethod else StreamingMethodGPU in
   s <- get_self ;;
   set_attr (with_stream (Some
     {| stream_cls := stream_class;
        stream_data := data sys;
        stream_timestep := current_time_step c;
        stream_period := period s;
        stream_phase := -1 |})) ;;
   set_attr (with_collide None)) st =
  ({| self := with_collide None
                (with_stream (Some (default_stream (hoomd st) sys (period (self st))))
                             (self st));
      hoomd := hoomd st |},
   Returns tt).
Proof.
  unfold bind, get_hoomd, get_self, set_attr, default_stream. cbn [self hoomd].
  destruct (cuda_enabled (hoomd st)); reflexivity.
Qed.

Lemma construct_None_run (dt' : float) (period' : Z) (c : context) (sys : mpcd_system) :
  mpcd c = Some sys ->
  construct dt' period' PNone c =
  (registered c (built_engine sys dt'),
   Returns (constructed_object dt' period' PNone c sys)).
Proof.
  intros Hm. unfold construct. rewrite (init_run _ _ _ _ _ Hm).
  cbn [is_None].
  erewrite bind_returns by reflexivity.
  rewrite init_tail_run. reflexivity.
Qed.

Lemma construct_recognized_run (dt' : float) (period' : Z) (a : pyval)
    (c : context) (sys : mpcd_system) (mode : IntegratorAnisotropicMode) :
  mpcd c = Some sys ->
  is_None a = false ->
  recognized a ->
  dict_getitem _aniso_modes a = Returns mode ->
  construct dt' period' a c =
  (registered c (setAnisotropicMode mode (built_engine sys dt')),
   Returns (constructed_object dt' period' a c sys)).
Proof.
  intros Hm Hnn Hrec Hget. unfold construct. rewrite (init_run _ _ _ _ _ Hm), Hnn.
  unfold quiet_status, unquiet_status.
  erewrite bind_returns.
  2:{ run_step. etransitivity.
      - apply bind_returns.
        apply (set_params_recognized_run None a _ _ mode
                 (active_configured dt' period' a c sys) Hnn Hrec Hget).
      - reflexivity. }
  rewrite init_tail_run.
  cbn [after_dt]. unfold configured. simpl_state.
  rewrite alter_last. reflexivity.
Qed.

Lemma construct_unrecognized_run (dt' : float) (period' : Z) (a : pyval)
    (c : context) (sys : mpcd_system) :
  mpcd c = Some sys ->
  unrecognized a ->
  construct dt' period' a c =
  (with_msg (msg c ++ [unknown_mode_message a]) (registered c (built_engine sys dt')),
   Raises (RuntimeError aniso_mode_error)).
Proof.
  intros Hm Hun. unfold construct.
  rewrite (init_run _ _ _ _ _ Hm), (unrecognized_not_None a Hun).
  unfold quiet_status, unquiet_status.
  erewrite bind_raises.
  2:{ run_step. apply bind_raises.
      apply (set_params_unrecognized_run None a _ _
               (active_configured dt' period' a c sys) Hun). }
  reflexivity.
Qed.

Lemma lookup_alter_preserved {B : Type} (g : Integrator -> B)
    (f : Integrator -> Integrator) (l : list Integrator) (h k : nat) :
  (forall x, g (f x) = g x) ->
  g <$> alter f h l !! k = g <$> l !! k.
Proof.
  intros Hgf. destruct (decide (h = k)) as [->|Hne].
  - rewrite list_lookup_alter_eq. destruct (l !! k); cbn; [rewrite Hgf|]; reflexivity.
  - rewrite list_lookup_alter_ne by exact Hne. reflexivity.
Qed.

(** Storing and pushing a time step leaves every anisotropy mode alone. *)
Lemma after_dt_modes (dt : option float) (h k : nat) (st : state) :
  anisotropic_mode <$> engine (hoomd (after_dt dt h st)) k =
  anisotropic_mode <$> engine (hoomd st) k.
Proof.
  destruct dt as [d|]; [|reflexivity]. unfold engine. cbn [after_dt hoomd].
  rewrite natives_with_natives. apply lookup_alter_preserved. reflexivity.
Qed.

Lemma after_dt_aniso (dt : option float) (h : nat) (st : state) :
  aniso (self (after_dt dt h st)) = aniso (self st).
Proof. destruct dt; reflexivity. Qed.

(** ** The claims about [set_params] *)

(** A value the mode table does not know is either hashable and no key, or
    unhashable. *)
Lemma not_recognized_cases (a : pyval) :
  ~ recognized a ->
  (unrecognized a /\ hashable a = true) \/ hashable a = false.
Proof.
  intros Hnot.
  destruct (aniso_cases a) as [-> | [Hunh | [Hun | [_ Hrec]]]].
  - exfalso. apply Hnot. reflexivity.
  - right. exact Hunh.
  - left. split; [exact Hun|].
    unfold unrecognized, dict_contains in Hun.
    destruct (hashable a); [reflexivity | discriminate Hun].
  - exfalso. apply Hnot. exact Hrec.
Qed.

(** C3, as the code behaves: on an Active controller, [set_params] with any
    anisotropy value the mode table does not know raises, and the [aniso]
    attribute and the anisotropy mode of every native integrator are what
    they were; when no time step is given the controller and the native
    store are untouched altogether.  The error is the one the spec calls
    InvalidArgument when the value is hashable; for an unhashable value it
    is the [TypeError] of the membership test on line 99. *)
Theorem set_params_rejects_unknown_aniso
    (dt : option float) (X : pyval) (st : state) (h : nat) :
  active st h ->
  ~ recognized X ->
  exists st' e,
    set_params dt X st = (st', Raises e) /\
    (hashable X = true -> kind_of e = InvalidArgument) /\
    (hashable X = false -> e = TypeError "unhashable type: 'list'") /\
    aniso (self st') = aniso (self st) /\
    (forall k, anisotropic_mode <$> engine (hoomd st') k =
               anisotropic_mode <$> engine (hoomd st) k) /\
    (dt = None -> self st' = self st /\ natives (hoomd st') = natives (hoomd st)).
Proof.
  intros Hact Hnot.
  destruct (not_recognized_cases X Hnot) as [[Hun Hh] | Hunh].
  - rewrite (set_params_unrecognized_run dt X st h Hact Hun).
    eexists _, _. split; [reflexivity|].
    split; [reflexivity|]. split; [congruence|].
    cbn [self hoomd]. split; [apply after_dt_aniso|]. split.
    + intros k. rewrite <- (after_dt_modes dt h k st). reflexivity.
    + intros ->. split; reflexivity.
  - rewrite (set_params_unhashable_run dt X st h Hact Hunh).
    eexists _, _. split; [reflexivity|].
    split; [congruence|]. split; [reflexivity|].
    split; [apply after_dt_aniso|]. split.
    + intros k. apply after_dt_modes.
    + intros ->. split; reflexivity.
Qed.

Lemma set_params_rejects_unknown_aniso_witness :
  active sample_state 0 /\
  ~ recognized (PStr "anisotropic") /\
  exists st' e,
    set_params None (PStr "anisotropic") sample_state = (st', Raises e) /\
    (hashable (PStr "anisotropic") = true -> kind_of e = InvalidArgument) /\
    (hashable (PStr "anisotropic") = false -> e = TypeError "unhashable type: 'list'") /\
    aniso (self st') = PBool true /\
    (forall k, anisotropic_mode <$> engine (hoomd st') k =
               anisotropic_mode <$> engine (hoomd sample_state) k) /\
    (@None float = None ->
     self st' = self sample_state /\
     natives (hoomd st') = natives (hoomd sample_state)).
Proof.
  split; [reflexivity|]. split; [discriminate|].
  apply (set_params_rejects_unknown_aniso None (PStr "anisotropic") sample_state 0);
    [reflexivity | discriminate].
Defined.

(** C3 as stated fails: a list is in no recognized set, yet in
    [sample_state] [set_params(aniso=[])] raises the [TypeError] of the
    membership test, which is not the error the spec calls
    InvalidArgument. *)
Lemma set_params_unhashable_aniso_is_TypeError :
  active sample_state 0 /\
  ~ recognized (PList []) /\
  exists st',
    set_params None (PList []) sample_state
    = (st', Raises (TypeError "unhashable type: 'list'")) /\
    kind_of (TypeError "unhashable type: 'list'") = OtherError /\
    kind_of (TypeError "unhashable type: 'list'") <> InvalidArgument.
Proof.
  split; [reflexivity|]. split; [discriminate|].
  eexists. split; [reflexivity|]. split; [reflexivity | discriminate].
Qed.

(** C4, as the code behaves: on an Active controller,
    [set_params(dt=d, aniso=X)] with any [X] the mode table does not know
    raises (the error the spec calls InvalidArgument when [X] is hashable,
    the [TypeError] of the membership test when it is not) and leaves the
    [aniso] attribute and the engine's anisotropy mode as they were, but by
    then the time step [d] has been stored in the controller and pushed to
    the engine. *)
Theorem set_params_applies_dt_before_validating_aniso
    (d : float) (X : pyval) (st : state) (h : nat) (eng : Integrator) :
  active st h ->
  engine (hoomd st) h = Some eng ->
  ~ recognized X ->
  exists st' e eng',
    set_params (Some d) X st = (st', Raises e) /\
    (hashable X = true -> kind_of e = InvalidArgument) /\
    (hashable X = false -> e = TypeError "unhashable type: 'list'") /\
    dt (self st') = d /\
    engine (hoomd st') h = Some eng' /\
    deltaT eng' = d /\
    aniso (self st') = aniso (self st) /\
    anisotropic_mode eng' = anisotropic_mode eng.
Proof.
  intros Hact Heng Hnot.
  destruct (not_recognized_cases X Hnot) as [[Hun Hh] | Hunh].
  - rewrite (set_params_unrecognized_run (Some d) X st h Hact Hun).
    eexists _, _, _. split; [reflexivity|].
    split; [reflexivity|]. split; [congruence|].
    unfold engine in *. cbn [after_dt self hoomd with_dt dt aniso].
    split; [reflexivity|]. split.
    + unfold with_msg, with_natives; cbn [natives].
      rewrite list_lookup_alter_eq, Heng. reflexivity.
    + repeat split; reflexivity.
  - rewrite (set_params_unhashable_run (Some d) X st h Hact Hunh).
    eexists _, _, _. split; [reflexivity|].
    split; [congruence|]. split; [reflexivity|].
    unfold engine in *. cbn [after_dt self hoomd with_dt dt aniso].
    split; [reflexivity|]. split.
    + rewrite natives_with_natives, list_lookup_alter_eq, Heng. reflexivity.
    + repeat split; reflexivity.
Qed.

Lemma set_params_applies_dt_before_validating_aniso_witness :
  active sample_state 0 /\
  engine (hoomd sample_state) 0 = Some sample_engine /\
  ~ recognized (PList []) /\
  exists st' e eng',
    set_params (Some 2%float) (PList []) sample_state = (st', Raises e) /\
    (hashable (PList []) = true -> kind_of e = InvalidArgument) /\
    (hashable (PList []) = false -> e = TypeError "unhashable type: 'list'") /\
    dt (self st') = 2%float /\
    engine (hoomd st') 0 = Some eng' /\
    deltaT eng' = 2%float /\
    aniso (self st') = PBool true /\
    anisotropic_mode eng' = Anisotropic.
Proof.
  split; [reflexivity|]. split; [reflexivity|]. split; [discriminate|].
  apply (set_params_applies_dt_before_validating_aniso
           2%float (PList []) sample_state 0 sample_engine);
    [reflexivity | reflexivity | discriminate].
Defined.

(** C4 as stated fails: in [sample_state], whose time step is 0.5,
    [set_params(dt=2.0, aniso="anisotropic")] raises, and afterwards the
    controller's time step and the engine's time step are both 2.0. *)
Lemma set_params_failure_keeps_new_dt :
  active sample_state 0 /\
  unrecognized (PStr "anisotropic") /\
  dt (self sample_state) = 0.5%float /\
  deltaT <$> engine (hoomd sample_state) 0 = Some 0.5%float /\
  exists st',
    set_params (Some 2%float) (PStr "anisotropic") sample_state
    = (st', Raises (RuntimeError aniso_mode_error)) /\
    dt (self st') = 2%float /\
    deltaT <$> engine (hoomd st') 0 = Some 2%float /\
    PrimFloat.eqb (dt (self st')) (dt (self sample_state)) = false /\
    self st' <> self sample_state /\
    natives (hoomd st') <> natives (hoomd sample_state).
Proof.
  do 4 (split; [reflexivity|]).
  eexists. split; [reflexivity|].
  do 3 (split; [reflexivity|]).
  split.
  - intros H. apply (f_equal (fun s => PrimFloat.eqb (dt s) 2%float)) in H.
    vm_compute in H. discriminate H.
  - intros H.
    apply (f_equal (fun l => match l with
                             | i :: _ => PrimFloat.eqb (deltaT i) 2%float
                             | [] => false
                             end)) in H.
    vm_compute in H. discriminate H.
Qed.

(** C10: [set_params] with [aniso=None] leaves the [aniso] attribute and the
    anisotropy mode of every native integrator as they were, whatever [dt]
    is and whatever state it runs in.  The mode table does map [None] to
    [Automatic], yet no call of [set_params], with any anisotropy value,
    brings an engine whose mode is not [Automatic] to [Automatic]. *)
Theorem set_params_None_keeps_mode (dt : option float) (st : state) :
  let st' := fst (set_params dt PNone st) in
  aniso (self st') = aniso (self st) /\
  (forall k, anisotropic_mode <$> engine (hoomd st') k =
             anisotropic_mode <$> engine (hoomd st) k) /\
  dict_getitem _aniso_modes PNone = Returns Automatic /\
  forall (X : pyval) (k : nat) (eng eng' : Integrator),
    engine (hoomd st) k = Some eng ->
    engine (hoomd (fst (set_params dt X st))) k = Some eng' ->
    anisotropic_mode eng <> Automatic ->
    anisotropic_mode eng' <> Automatic.
Proof.
  cbv zeta.
  destruct (cpp_integrator (self st)) as [h|] eqn:Hh.
  - rewrite (set_params_None_run dt st h Hh). cbn [fst].
    split; [apply after_dt_aniso|]. split; [intros k; apply after_dt_modes|].
    split; [reflexivity|].
    intros X k eng eng' Heng Heng' Hmode.
    assert (Hkeep : anisotropic_mode <$> engine (hoomd (after_dt dt h st)) k
                    = Some (anisotropic_mode eng))
      by (rewrite after_dt_modes, Heng; reflexivity).
    destruct (aniso_cases X) as [-> | [Hunh | [Hun | [Hnn Hrec]]]].
    + rewrite (set_params_None_run dt st h Hh) in Heng'. cbn [fst] in Heng'.
      rewrite Heng' in Hkeep. injection Hkeep as ->. exact Hmode.
    + rewrite (set_params_unhashable_run dt X st h Hh Hunh) in Heng'.
      cbn [fst] in Heng'.
      rewrite Heng' in Hkeep. injection Hkeep as ->. exact Hmode.
    + rewrite (set_params_unrecognized_run dt X st h Hh Hun) in Heng'.
      cbn [fst hoomd] in Heng'. unfold engine in *.
      change (natives (with_msg _ ?c)) with (natives c) in Heng'.
      rewrite Heng' in Hkeep. injection Hkeep as ->. exact Hmode.
    + destruct (recognized_mode X Hrec Hnn) as (mode & Hget & Hmo).
      rewrite (set_params_recognized_run dt X st h mode Hh Hnn Hrec Hget) in Heng'.
      cbn [fst hoomd] in Heng'. unfold engine in *.
      rewrite natives_with_natives in Heng'.
      destruct (decide (h = k)) as [->|Hne].
      * rewrite list_lookup_alter_eq in Heng'.
        destruct (natives (hoomd (after_dt dt k st)) !! k); [|discriminate].
        injection Heng' as <-. exact Hmo.
      * rewrite list_lookup_alter_ne in Heng' by exact Hne.
        rewrite Heng' in Hkeep. injection Hkeep as ->. exact Hmode.
  - rewrite (set_params_inactive dt PNone st Hh). cbn [fst].
    do 3 (split; [reflexivity|]).
    intros X k eng eng' Heng Heng' Hmode.
    rewrite (set_params_inactive dt X st Hh) in Heng'. cbn [fst] in Heng'.
    rewrite Heng in Heng'. injection Heng' as <-. exact Hmode.
Qed.

Example set_params_None_after_True :
  anisotropic_mode <$> engine (hoomd (fst (set_params None PNone sample_state))) 0
  = Some Anisotropic.
Proof. reflexivity. Qed.

(** ** The claims about construction *)

Lemma construct_unhashable_run (dt' : float) (period' : Z) (a : pyval)
    (c : context) (sys : mpcd_system) :
  mpcd c = Some sys ->
  hashable a = false ->
  construct dt' period' a c =
  (registered c (built_engine sys dt'),
   Raises (TypeError "unhashable type: 'list'")).
Proof.
  intros Hm Hun. unfold construct. rewrite (init_run _ _ _ _ _ Hm).
  assert (Hnn : is_None a = false) by (destruct a; try discriminate; reflexivity).
  rewrite Hnn. unfold quiet_status, unquiet_status.
  erewrite bind_raises.
  2:{ run_step. apply bind_raises.
      apply (set_params_unhashable_run None a _ _
               (active_configured dt' period' a c sys) Hun). }
  reflexivity.
Qed.

Lemma recognized_None : recognized PNone.
Proof. reflexivity. Qed.

Lemma deltaT_built_engine (sys : mpcd_system) (d : float) :
  deltaT (built_engine sys d) = d.
Proof. unfold built_engine. destruct (comm sys); reflexivity. Qed.

Lemma collision_built_engine (sys : mpcd_system) (d : float) :
  collision (built_engine sys d) = None.
Proof. unfold built_engine. destruct (comm sys); reflexivity. Qed.

(** With an MPCD system in the context and an anisotropy value the mode
    table knows, construction returns, whatever the time step and period. *)
Lemma construct_succeeds (dt' : float) (period' : Z) (a : pyval)
    (c : context) (sys : mpcd_system) :
  mpcd c = Some sys ->
  recognized a ->
  exists eng,
    construct dt' period' a c =
    (registered c eng, Returns (constructed_object dt' period' a c sys)) /\
    deltaT eng = dt' /\ collision eng = None.
Proof.
  intros Hm Hrec. destruct (is_None a) eqn:Hnn.
  - destruct a; try discriminate.
    exists (built_engine sys dt'). rewrite (construct_None_run _ _ _ _ Hm).
    split; [reflexivity|].
    split; [apply deltaT_built_engine | apply collision_built_engine].
  - destruct (recognized_mode a Hrec Hnn) as (mode & Hget & _).
    exists (setAnisotropicMode mode (built_engine sys dt')).
    rewrite (construct_recognized_run _ _ _ _ _ _ Hm Hnn Hrec Hget).
    split; [reflexivity|].
    split; [apply deltaT_built_engine | apply collision_built_engine].
Qed.

(** Construction returns only then. *)
Lemma construct_returns_inv (dt' : float) (period' : Z) (a : pyval)
    (c c' : context) (obj : integrator) :
  construct dt' period' a c = (c', Returns obj) ->
  exists sys, mpcd c = Some sys /\ recognized a.
Proof.
  intros H. destruct (mpcd c) as [sys|] eqn:Hm.
  - exists sys. split; [reflexivity|].
    destruct (aniso_cases a) as [-> | [Hunh | [Hun | [_ Hrec]]]].
    + apply recognized_None.
    + rewrite (construct_unhashable_run _ _ _ _ _ Hm Hunh) in H. discriminate H.
    + rewrite (construct_unrecognized_run _ _ _ _ _ Hm Hun) in H. discriminate H.
    + exact Hrec.
  - rewrite (construct_uninitialized_run _ _ _ _ Hm) in H. discriminate H.
Qed.

(** C2 as stated fails: with [dt = -1.0] and [period = 0], both out of the
    range the spec names, construction in [sample_context] returns an
    object, and the native integrator it created is installed as the
    system's integrator, which was empty before. *)
Lemma construct_accepts_nonpositive_dt_and_period :
  PrimFloat.leb (-1)%float 0%float = true /\
  (0 <? 1) = true /\
  system_integrator sample_context = None /\
  exists c' obj,
    construct (-1)%float 0 PNone sample_context = (c', Returns obj) /\
    system_integrator c' = Some 0%nat /\
    deltaT <$> engine c' 0 = Some (-1)%float /\
    period obj = 0.
Proof.
  do 3 (split; [reflexivity|]).
  eexists _, _. repeat split; reflexivity.
Qed.

(** C2, as the code behaves: the constructor checks neither the time step
    nor the period.  For every [dt] and [period], those at or below zero and
    below one included, construction in a context with an MPCD system and
    with an anisotropy value the mode table knows returns an object holding
    that time step and period, and the native integrator it created, with
    that time step, is installed as the system's integrator. *)
Theorem construct_checks_no_range
    (dt' : float) (period' : Z) (a : pyval) (c : context) (sys : mpcd_system) :
  mpcd c = Some sys ->
  recognized a ->
  exists c' obj h eng,
    construct dt' period' a c = (c', Returns obj) /\
    dt obj = dt' /\
    period obj = period' /\
    cpp_integrator obj = Some h /\
    system_integrator c' = Some h /\
    engine c h = None /\
    engine c' h = Some eng /\
    deltaT eng = dt'.
Proof.
  intros Hm Hrec.
  destruct (construct_succeeds dt' period' a c sys Hm Hrec) as (eng & Hrun & Hdt & _).
  exists (registered c eng), (constructed_object dt' period' a c sys),
    (length (natives c)), eng.
  split; [exact Hrun|]. do 4 (split; [reflexivity|]).
  unfold engine. split; [apply lookup_ge_None_2; reflexivity|].
  split; [apply lookup_last | exact Hdt].
Qed.

Lemma construct_checks_no_range_witness :
  mpcd sample_context = Some {| data := 7%nat; comm := None |} /\
  recognized PNone /\
  exists c' obj h eng,
    construct 0%float (-3) PNone sample_context = (c', Returns obj) /\
    dt obj = 0%float /\
    period obj = -3 /\
    cpp_integrator obj = Some h /\
    system_integrator c' = Some h /\
    engine sample_context h = None /\
    engine c' h = Some eng /\
    deltaT eng = 0%float.
Proof.
  split; [reflexivity|]. split; [reflexivity|].
  apply (construct_checks_no_range 0%float (-3) PNone sample_context
           {| data := 7%nat; comm := None |}); reflexivity.
Defined.

(** C6: for every time step above zero and period of at least one, a
    construction that returns has stored the given time step, in the object
    and in its native integrator, has left the collision slot empty, and has
    attached a streaming object of the CPU class when CUDA is not enabled
    and of the GPU class when it is, built from the MPCD data, the current
    time step, the period and the phase -1. *)
Theorem construct_stores_dt_and_attaches_default_stream
    (dt' : float) (period' : Z) (a : pyval) (c c' : context) (obj : integrator) :
  PrimFloat.ltb 0%float dt' = true ->
  1 <= period' ->
  construct dt' period' a c = (c', Returns obj) ->
  dt obj = dt' /\
  (exists h eng,
     cpp_integrator obj = Some h /\ engine c' h = Some eng /\
     deltaT eng = dt' /\ collision eng = None) /\
  _collide obj = None /\
  exists sm,
    _stream obj = Some sm /\
    stream_cls sm = (if cuda_enabled c then StreamingMethodGPU else StreamingMethod) /\
    stream_timestep sm = current_time_step c /\
    stream_period sm = period' /\
    stream_phase sm = -1.
Proof.
  intros _ _ Hrun.
  destruct (construct_returns_inv _ _ _ _ _ _ Hrun) as (sys & Hm & Hrec).
  destruct (construct_succeeds dt' period' a c sys Hm Hrec) as (eng & Hrun' & Hdt & Hco).
  rewrite Hrun' in Hrun. injection Hrun as <- <-.
  split; [reflexivity|]. split.
  - exists (length (natives c)), eng. split; [reflexivity|].
    split; [apply lookup_last|]. split; assumption.
  - split; [reflexivity|].
    eexists. split; [reflexivity|]. repeat split; reflexivity.
Qed.

Lemma construct_stores_dt_and_attaches_default_stream_witness :
  PrimFloat.ltb 0%float 0.5%float = true /\
  1 <= 1 /\
  construct 0.5%float 1 (PBool true) sample_context
  = (hoomd sample_state, Returns (self sample_state)) /\
  dt (self sample_state) = 0.5%float /\
  (exists h eng,
     cpp_integrator (self sample_state) = Some h /\
     engine (hoomd sample_state) h = Some eng /\
     deltaT eng = 0.5%float /\ collision eng = None) /\
  _collide (self sample_state) = None /\
  exists sm,
    _stream (self sample_state) = Some sm /\
    stream_cls sm = StreamingMethod /\
    stream_timestep sm = 5 /\
    stream_period sm = 1 /\
    stream_phase sm = -1.
Proof.
  split; [reflexivity|]. split; [lia|]. split; [reflexivity|].
  apply (construct_stores_dt_and_attaches_default_stream
           0.5%float 1 (PBool true) sample_context
           (hoomd sample_state) (self sample_state));
    [reflexivity | lia | reflexivity].
Defined.

(** C9: for every time step above zero and period of at least one, with an
    MPCD system in the context and an anisotropy value that is no key of the
    mode table, the constructor raises the error the spec calls
    InvalidArgument only after the native integrator has been created with
    that time step and installed as the system's integrator: the context the
    failed construction leaves behind has it registered. *)
Theorem construct_raises_after_registering
    (dt' : float) (period' : Z) (a : pyval) (c : context) (sys : mpcd_system) :
  PrimFloat.ltb 0%float dt' = true ->
  1 <= period' ->
  mpcd c = Some sys ->
  unrecognized a ->
  exists c' e h eng,
    construct dt' period' a c = (c', Raises e) /\
    kind_of e = InvalidArgument /\
    engine c h = None /\
    system_integrator c' = Some h /\
    engine c' h = Some eng /\
    deltaT eng = dt'.
Proof.
  intros _ _ Hm Hun.
  rewrite (construct_unrecognized_run _ _ _ _ _ Hm Hun).
  exists (with_msg (msg c ++ [unknown_mode_message a]) (registered c (built_engine sys dt'))),
    (RuntimeError aniso_mode_error), (length (natives c)), (built_engine sys dt').
  split; [reflexivity|]. split; [reflexivity|]. unfold engine.
  split; [apply lookup_ge_None_2; reflexivity|].
  split; [reflexivity|].
  split; [apply lookup_last | apply deltaT_built_engine].
Qed.

Lemma construct_raises_after_registering_witness :
  PrimFloat.ltb 0%float 0.5%float = true /\
  1 <= 1 /\
  mpcd sample_context = Some {| data := 7%nat; comm := None |} /\
  unrecognized (PStr "anisotropic") /\
  exists c' e h eng,
    construct 0.5%float 1 (PStr "anisotropic") sample_context = (c', Raises e) /\
    kind_of e = InvalidArgument /\
    engine sample_context h = None /\
    system_integrator c' = Some h /\
    engine c' h = Some eng /\
    deltaT eng = 0.5%float.
Proof.
  split; [reflexivity|]. split; [lia|]. split; [reflexivity|]. split; [reflexivity|].
  apply (construct_raises_after_registering 0.5%float 1 (PStr "anisotropic")
           sample_context {| data := 7%nat; comm := None |});
    [reflexivity | lia | reflexivity | reflexivity].
Defined.



(** The spec's example for C5: with no active method and both slots empty,
    reconciliation warns about streaming, then about collision, and leaves
    the engine's method list empty. *)
Example update_methods_on_bare_controller :
  let bare :=
    {| self := with_stream None (self stale_state);
       hoomd :=
         {| mpcd := mpcd (hoomd stale_state);
            system_integrator := system_integrator (hoomd stale_state);
            current_time_step := 5;
            integration_methods := [];
            cuda_enabled := false;
            msg := [];
            natives := [stale_engine] |} |} in
  exists st',
    update_methods bare = (st', Returns tt) /\
    msg (hoomd st') = [streaming_warning; collision_warning] /\
    methods <$> engine (hoomd st') 0 = Some [].
Proof. eexists. repeat split; reflexivity. Qed.

(** * Further properties of the class *)

(** ** The store around one engine *)

Lemma engine_after_dt_eq (new_dt : option float) (h : nat) (st : state) :
  engine (hoomd (after_dt new_dt h st)) h =
  match new_dt with
  | Some d => setDeltaT d <$> engine (hoomd st) h
  | None => engine (hoomd st) h
  end.
Proof.
  destruct new_dt as [d|]; [|reflexivity].
  unfold engine. cbn [after_dt hoomd]. rewrite natives_with_natives.
  apply list_lookup_alter_eq.
Qed.

Lemma engine_after_dt_ne (new_dt : option float) (h k : nat) (st : state) :
  k <> h ->
  engine (hoomd (after_dt new_dt h st)) k = engine (hoomd st) k.
Proof.
  intros Hne. destruct new_dt as [d|]; [|reflexivity].
  unfold engine. cbn [after_dt hoomd]. rewrite natives_with_natives.
  apply list_lookup_alter_ne. congruence.
Qed.

(** ** [set_params] beyond the claims *)

(** X1: one call of [set_params] with both arguments behaves, in every state
    and for every anisotropy value, as the call with the time step alone
    followed by the call with the anisotropy value alone: the same final
    state and the same outcome, failures included. *)
Theorem set_params_splits (new_dt : option float) (a : pyval) (st : state) :
  set_params new_dt a st =
  (set_params new_dt PNone ;; set_params None a) st.
Proof.
  destruct (cpp_integrator (self st)) as [h|] eqn:Hh.
  - rewrite (bind_returns _ _ _ _ _ (set_params_None_run new_dt st h Hh)).
    rewrite (set_params_dt_run new_dt a st h Hh).
    rewrite (set_params_dt_run None a _ h (active_after_dt new_dt h st Hh)).
    reflexivity.
  - rewrite (bind_raises _ _ _ _ _ (set_params_inactive new_dt PNone st Hh)).
    apply set_params_inactive. exact Hh.
Qed.

(** X2: a call of [set_params] with an anisotropy value the mode table knows
    (or with none) returns on an Active controller.  It stores the given
    time step and anisotropy value and pushes them to the controller's
    engine, the mode being the table's; an argument left out leaves its
    attribute and engine field alone.  The engine's methods and strategies,
    the other native integrators, the controller's slots and period, the
    message log and the system's integrator are as before. *)
Theorem set_params_success_effect
    (new_dt : option float) (a : pyval) (st : state) (h : nat) (eng : Integrator) :
  active st h ->
  engine (hoomd st) h = Some eng ->
  recognized a ->
  exists st' eng' mode,
    set_params new_dt a st = (st', Returns tt) /\
    dict_getitem _aniso_modes a = Returns mode /\
    engine (hoomd st') h = Some eng' /\
    dt (self st') = match new_dt with Some d => d | None => dt (self st) end /\
    deltaT eng' = match new_dt with Some d => d | None => deltaT eng end /\
    aniso (self st') = (if is_None a then aniso (self st) else a) /\
    anisotropic_mode eng' = (if is_None a then anisotropic_mode eng else mode) /\
    (methods eng' = methods eng /\ streaming eng' = streaming eng /\
     collision eng' = collision eng /\ mpcd_comm eng' = mpcd_comm eng /\
     sysdata eng' = sysdata eng) /\
    (forall k, k <> h -> engine (hoomd st') k = engine (hoomd st) k) /\
    (_stream (self st') = _stream (self st) /\
     _collide (self st') = _collide (self st) /\
     period (self st') = period (self st) /\
     cpp_integrator (self st') = cpp_integrator (self st)) /\
    msg (hoomd st') = msg (hoomd st) /\
    system_integrator (hoomd st') = system_integrator (hoomd st).
Proof.
  intros Hact Heng Hrec.
  destruct (is_None a) eqn:Hnn.
  - destruct a; try discriminate.
    rewrite (set_params_None_run new_dt st h Hact).
    exists (after_dt new_dt h st),
      (match new_dt with Some d => setDeltaT d eng | None => eng end), Automatic.
    split; [reflexivity|]. split; [reflexivity|].
    split; [rewrite engine_after_dt_eq, Heng; destruct new_dt; reflexivity|].
    split; [destruct new_dt; reflexivity|].
    split; [destruct new_dt; reflexivity|].
    split; [destruct new_dt; reflexivity|].
    split; [destruct new_dt; reflexivity|].
    split; [destruct new_dt; repeat split; reflexivity|].
    split; [intros k Hk; apply engine_after_dt_ne; exact Hk|].
    destruct new_dt; repeat split; reflexivity.
  - destruct (recognized_mode a Hrec Hnn) as (mode & Hget & _).
    rewrite (set_params_recognized_run new_dt a st h mode Hact Hnn Hrec Hget).
    eexists _, (setAnisotropicMode mode
                  (match new_dt with Some d => setDeltaT d eng | None => eng end)), mode.
    split; [reflexivity|]. split; [exact Hget|].
    unfold engine at 1. cbn [hoomd self]. rewrite natives_with_natives.
    split.
    { rewrite list_lookup_alter_eq.
      change (natives (hoomd (after_dt new_dt h st)) !! h)
        with (engine (hoomd (after_dt new_dt h st)) h).
      rewrite engine_after_dt_eq, Heng. destruct new_dt; reflexivity. }
    split; [destruct new_dt; reflexivity|].
    split; [destruct new_dt; reflexivity|].
    split; [reflexivity|].
    split; [reflexivity|].
    split; [destruct new_dt; repeat split; reflexivity|].
    split.
    { intros k Hk. unfold engine at 1. cbn [hoomd].
      rewrite natives_with_natives, list_lookup_alter_ne by congruence.
      apply engine_after_dt_ne. exact Hk. }
    destruct new_dt; repeat split; reflexivity.
Qed.

Lemma set_params_success_effect_witness :
  active stale_state 0 /\
  engine (hoomd stale_state) 0 = Some stale_engine /\
  recognized (PBool false) /\
  exists st' eng' mode,
    set_params (Some 0.25%float) (PBool false) stale_state = (st', Returns tt) /\
    dict_getitem _aniso_modes (PBool false) = Returns mode /\
    engine (hoomd st') 0 = Some eng' /\
    dt (self st') = 0.25%float /\
    deltaT eng' = 0.25%float /\
    aniso (self st') = PBool false /\
    anisotropic_mode eng' = mode /\
    (methods eng' = [9%nat; 3%nat] /\ streaming eng' = None /\
     collision eng' = Some 4%nat /\ mpcd_comm eng' = None /\
     sysdata eng' = 7%nat) /\
    (forall k, k <> 0%nat -> engine (hoomd st') k = engine (hoomd stale_state) k) /\
    (_stream (self st') = _stream (self stale_state) /\
     _collide (self st') = _collide (self stale_state) /\
     period (self st') = period (self stale_state) /\
     cpp_integrator (self st') = cpp_integrator (self stale_state)) /\
    msg (hoomd st') = msg (hoomd stale_state) /\
    system_integrator (hoomd st') = system_integrator (hoomd stale_state).
Proof.
  split; [reflexivity|]. split; [reflexivity|]. split; [reflexivity|].
  apply (set_params_success_effect (Some 0.25%float) (PBool false)
           stale_state 0 stale_engine); reflexivity.
Defined.

Lemma int_key_contains (z : Z) :
  dict_contains _aniso_modes (PInt z) = Returns ((z =? 1) || (z =? 0)).
Proof.
  unfold dict_contains. cbn [hashable _aniso_modes existsb fst py_eq Z_of_bool].
  rewrite orb_false_r. reflexivity.
Qed.

Lemma int_key_getitem (z : Z) :
  dict_getitem _aniso_modes (PInt z) =
  if z =? 1 then Returns Anisotropic
  else if z =? 0 then Returns Isotropic
  else Raises (KeyError (PInt z)).
Proof.
  unfold dict_getitem. cbn [hashable _aniso_modes List.find fst snd py_eq Z_of_bool].
  destruct (z =? 1); [reflexivity|]. destruct (z =? 0); reflexivity.
Qed.

Lemma str_unrecognized (s : string) : unrecognized (PStr s).
Proof. reflexivity. Qed.

(** X3: which integers and strings [set_params] takes as an anisotropy
    value.  On an Active controller the integers 0 and 1 are accepted, as
    the keys [False] and [True] they are equal to: 1 selects the anisotropic
    mode, 0 the isotropic one, and the attribute holds the integer as given.
    Every other integer and every string is rejected with the module's
    error, the mode and the attribute staying as they were. *)
Theorem set_params_integers_and_strings
    (z : Z) (s : string) (st : state) (h : nat) (eng : Integrator) :
  active st h ->
  engine (hoomd st) h = Some eng ->
  snd (set_params None (PInt z) st) =
    (if (z =? 1) || (z =? 0) then Returns tt
     else Raises (RuntimeError aniso_mode_error)) /\
  anisotropic_mode <$> engine (hoomd (fst (set_params None (PInt z) st))) h =
    Some (if z =? 1 then Anisotropic
          else if z =? 0 then Isotropic
          else anisotropic_mode eng) /\
  aniso (self (fst (set_params None (PInt z) st))) =
    (if (z =? 1) || (z =? 0) then PInt z else aniso (self st)) /\
  snd (set_params None (PStr s) st) = Raises (RuntimeError aniso_mode_error) /\
  anisotropic_mode <$> engine (hoomd (fst (set_params None (PStr s) st))) h =
    Some (anisotropic_mode eng) /\
  aniso (self (fst (set_params None (PStr s) st))) = aniso (self st).
Proof.
  intros Hact Heng.
  assert (Hint :
    snd (set_params None (PInt z) st) =
      (if (z =? 1) || (z =? 0) then Returns tt
       else Raises (RuntimeError aniso_mode_error)) /\
    anisotropic_mode <$> engine (hoomd (fst (set_params None (PInt z) st))) h =
      Some (if z =? 1 then Anisotropic
            else if z =? 0 then Isotropic
            else anisotropic_mode eng) /\
    aniso (self (fst (set_params None (PInt z) st))) =
      (if (z =? 1) || (z =? 0) then PInt z else aniso (self st))).
  { pose proof (int_key_contains z) as Hin.
    pose proof (int_key_getitem z) as Hget.
    destruct ((z =? 1) || (z =? 0)) eqn:Hor.
    - assert (Hm : exists mode,
                dict_getitem _aniso_modes (PInt z) = Returns mode /\
                mode = (if z =? 1 then Anisotropic else Isotropic)).
      { destruct (z =? 1); [eexists; split; [exact Hget | reflexivity]|].
        cbn [orb] in Hor. rewrite Hor in Hget.
        eexists; split; [exact Hget | reflexivity]. }
      destruct Hm as (mode & Hget' & Hmode).
      rewrite (set_params_recognized_run None (PInt z) st h mode Hact eq_refl Hin Hget').
      cbn [fst snd self hoomd after_dt with_aniso aniso].
      split; [reflexivity|]. split; [|reflexivity].
      unfold engine in *. rewrite natives_with_natives, list_lookup_alter_eq, Heng.
      cbn. rewrite Hmode. destruct (z =? 1); [reflexivity|].
      cbn [orb] in Hor. rewrite Hor. reflexivity.
    - rewrite (set_params_unrecognized_run None (PInt z) st h Hact Hin).
      cbn [fst snd self hoomd after_dt].
      apply orb_false_elim in Hor. destruct Hor as [-> ->].
      split; [reflexivity|]. split; [|reflexivity].
      unfold engine in *. change (natives (with_msg _ ?c)) with (natives c).
      rewrite Heng. reflexivity. }
  destruct Hint as (H1 & H2 & H3).
  split; [exact H1|]. split; [exact H2|]. split; [exact H3|].
  rewrite (set_params_unrecognized_run None (PStr s) st h Hact (str_unrecognized s)).
  cbn [fst snd self hoomd after_dt].
  split; [reflexivity|]. split; [|reflexivity].
  unfold engine in *. change (natives (with_msg _ ?c)) with (natives c).
  rewrite Heng. reflexivity.
Qed.

Lemma set_params_integers_and_strings_witness :
  active stale_state 0 /\
  engine (hoomd stale_state) 0 = Some stale_engine /\
  snd (set_params None (PInt 0) stale_state) = Returns tt /\
  anisotropic_mode <$> engine (hoomd (fst (set_params None (PInt 0) stale_state))) 0 =
    Some Isotropic /\
  aniso (self (fst (set_params None (PInt 0) stale_state))) = PInt 0 /\
  snd (set_params None (PStr "True") stale_state) = Raises (RuntimeError aniso_mode_error) /\
  anisotropic_mode <$> engine (hoomd (fst (set_params None (PStr "True") stale_state))) 0 =
    Some Anisotropic /\
  aniso (self (fst (set_params None (PStr "True") stale_state))) = PBool true.
Proof.
  split; [reflexivity|]. split; [reflexivity|].
  apply (set_params_integers_and_strings 0 "True" stale_state 0 stale_engine);
    reflexivity.
Defined.

(** X4: the only ways [set_params] fails.  It raises on a controller that
    holds no native integrator, changing nothing; on an anisotropy value
    that is hashable and no key of the mode table, with the module's error;
    and on an unhashable anisotropy value, with the [TypeError] of the
    membership test.  In particular the table lookup of line 100 never
    raises [KeyError], and no native call is made through a missing
    handle. *)
Theorem set_params_raises_only
    (new_dt : option float) (a : pyval) (st st' : state) (e : exn) :
  set_params new_dt a st = (st', Raises e) ->
  (e = RuntimeError integrator_not_active /\
   cpp_integrator (self st) = None /\ st' = st) \/
  (e = RuntimeError aniso_mode_error /\
   unrecognized a /\ is_Some (cpp_integrator (self st))) \/
  (e = TypeError "unhashable type: 'list'" /\
   hashable a = false /\ is_Some (cpp_integrator (self st))).
Proof.
  intros Hrun.
  destruct (cpp_integrator (self st)) as [h|] eqn:Hh.
  - destruct (aniso_cases a) as [-> | [Hunh | [Hun | [Hnn Hrec]]]].
    + rewrite (set_params_None_run new_dt st h Hh) in Hrun. discriminate Hrun.
    + rewrite (set_params_unhashable_run new_dt a st h Hh Hunh) in Hrun.
      injection Hrun as _ <-. right; right. repeat split; [exact Hunh | eauto].
    + rewrite (set_params_unrecognized_run new_dt a st h Hh Hun) in Hrun.
      injection Hrun as _ <-. right; left. repeat split; [exact Hun | eauto].
    + destruct (recognized_mode a Hrec Hnn) as (mode & Hget & _).
      rewrite (set_params_recognized_run new_dt a st h mode Hh Hnn Hrec Hget) in Hrun.
      discriminate Hrun.
  - rewrite (set_params_inactive new_dt a st Hh) in Hrun.
    injection Hrun as <- <-. left. repeat split.
Qed.

Lemma set_params_raises_only_witness :
  set_params (Some 2%float) (PList []) sample_state
  = (after_dt (Some 2%float) 0 sample_state,
     Raises (TypeError "unhashable type: 'list'")) /\
  ((TypeError "unhashable type: 'list'" = RuntimeError integrator_not_active /\
    cpp_integrator (self sample_state) = None /\
    after_dt (Some 2%float) 0 sample_state = sample_state) \/
   (TypeError "unhashable type: 'list'" = RuntimeError aniso_mode_error /\
    unrecognized (PList []) /\ is_Some (cpp_integrator (self sample_state))) \/
   (TypeError "unhashable type: 'list'" = TypeError "unhashable type: 'list'" /\
    hashable (PList []) = false /\ is_Some (cpp_integrator (self sample_state)))).
Proof.
  split; [reflexivity|].
  apply (set_params_raises_only (Some 2%float) (PList []) sample_state
           (after_dt (Some 2%float) 0 sample_state)).
  reflexivity.
Defined.

(** ** [update_methods] beyond the claims *)

(** X5: what [update_methods] leaves alone.  On an Active controller it
    changes nothing of the controller itself, nothing of the engine but its
    method list and its two strategies (the time step, the anisotropy mode,
    the communicator and the particle data stay), no other native
    integrator, and nothing of the context but the message log, which it
    only extends. *)
Theorem update_methods_frame (st : state) (h : nat) (eng : Integrator) :
  active st h ->
  engine (hoomd st) h = Some eng ->
  exists st' eng',
    update_methods st = (st', Returns tt) /\
    self st' = self st /\
    engine (hoomd st') h = Some eng' /\
    (deltaT eng' = deltaT eng /\
     anisotropic_mode eng' = anisotropic_mode eng /\
     mpcd_comm eng' = mpcd_comm eng /\
     sysdata eng' = sysdata eng) /\
    (forall k, k <> h -> engine (hoomd st') k = engine (hoomd st) k) /\
    length (natives (hoomd st')) = length (natives (hoomd st)) /\
    (mpcd (hoomd st') = mpcd (hoomd st) /\
     system_integrator (hoomd st') = system_integrator (hoomd st) /\
     current_time_step (hoomd st') = current_time_step (hoomd st) /\
     integration_methods (hoomd st') = integration_methods (hoomd st) /\
     cuda_enabled (hoomd st') = cuda_enabled (hoomd st)) /\
    exists new, msg (hoomd st') = (msg (hoomd st) ++ new)%list.
Proof.
  intros Hact Heng. unfold engine in *.
  rewrite (update_methods_run st h Hact).
  eexists _, _. split; [reflexivity|]. cbn [self hoomd natives msg].
  split; [reflexivity|].
  split; [rewrite list_lookup_alter_eq, Heng; reflexivity|].
  split; [repeat split; reflexivity|].
  split; [intros k Hk; apply list_lookup_alter_ne; congruence|].
  split; [apply length_alter|].
  split; [repeat split; reflexivity|].
  eexists. reflexivity.
Qed.

Lemma update_methods_frame_witness :
  active stale_state 0 /\
  engine (hoomd stale_state) 0 = Some stale_engine /\
  exists st' eng',
    update_methods stale_state = (st', Returns tt) /\
    self st' = self stale_state /\
    engine (hoomd st') 0 = Some eng' /\
    (deltaT eng' = 0.5%float /\
     anisotropic_mode eng' = Anisotropic /\
     mpcd_comm eng' = None /\
     sysdata eng' = 7%nat) /\
    (forall k, k <> 0%nat -> engine (hoomd st') k = engine (hoomd stale_state) k) /\
    length (natives (hoomd st')) = 1%nat /\
    (mpcd (hoomd st') = mpcd (hoomd stale_state) /\
     system_integrator (hoomd st') = Some 0%nat /\
     current_time_step (hoomd st') = 5 /\
     integration_methods (hoomd st') = integration_methods (hoomd stale_state) /\
     cuda_enabled (hoomd st') = false) /\
    exists new, msg (hoomd st') = (msg (hoomd stale_state) ++ new)%list.
Proof.
  split; [reflexivity|]. split; [reflexivity|].
  apply (update_methods_frame stale_state 0 stale_engine); reflexivity.
Defined.

(** ** Construction beyond the claims *)

(** A construction that returns, in full. *)
Lemma construct_returns_form (dt' : float) (period' : Z) (a : pyval)
    (c c' : context) (obj : integrator) :
  construct dt' period' a c = (c', Returns obj) ->
  exists sys mode,
    mpcd c = Some sys /\
    dict_getitem _aniso_modes a = Returns mode /\
    c' = registered c (if is_None a then built_engine sys dt'
                       else setAnisotropicMode mode (built_engine sys dt')) /\
    obj = constructed_object dt' period' a c sys.
Proof.
  intros Hrun.
  destruct (construct_returns_inv _ _ _ _ _ _ Hrun) as (sys & Hm & Hrec).
  destruct (is_None a) eqn:Hnn.
  - destruct a; try discriminate.
    rewrite (construct_None_run _ _ _ _ Hm) in Hrun. injection Hrun as <- <-.
    exists sys, Automatic. repeat split; [exact Hm].
  - destruct (recognized_mode a Hrec Hnn) as (mode & Hget & _).
    rewrite (construct_recognized_run _ _ _ _ _ _ Hm Hnn Hrec Hget) in Hrun.
    injection Hrun as <- <-.
    exists sys, mode. repeat split; [exact Hm | exact Hget].
Qed.

Lemma engine_registered_old (c : context) (k : nat) (eng e : Integrator) :
  engine c k = Some e -> engine (registered c eng) k = Some e.
Proof.
  unfold engine, registered; cbn [natives]. intros H.
  now apply lookup_app_l_Some.
Qed.

Lemma engine_registered_new (c : context) (eng : Integrator) :
  engine (registered c eng) (length (natives c)) = Some eng.
Proof. unfold engine, registered; cbn [natives]. apply lookup_last. Qed.

Lemma length_registered (c : context) (eng : Integrator) :
  length (natives (registered c eng)) = S (length (natives c)).
Proof.
  unfold registered; cbn [natives]. rewrite length_app. cbn. lia.
Qed.

(** X6: what construction leaves alone, whether it returns or raises.  Every
    native integrator already in the store is untouched, the context's MPCD
    system, time step, method list and device flag are as before, and the
    message log is extended by at most one message, by none when
    construction returns.  Without an MPCD system nothing is created or
    installed; with one, exactly one native integrator is created and it is
    installed as the system's integrator, replacing whatever was installed,
    even when the constructor then raises. *)
Theorem construct_frame
    (dt' : float) (period' : Z) (a : pyval) (c c' : context)
    (r : outcome integrator) :
  construct dt' period' a c = (c', r) ->
  (forall k eng, engine c k = Some eng -> engine c' k = Some eng) /\
  (mpcd c' = mpcd c /\
   current_time_step c' = current_time_step c /\
   integration_methods c' = integration_methods c /\
   cuda_enabled c' = cuda_enabled c) /\
  (exists new,
     msg c' = (msg c ++ new)%list /\ (length new <= 1)%nat /\
     (forall obj, r = Returns obj -> new = [])) /\
  match mpcd c with
  | None =>
      natives c' = natives c /\ system_integrator c' = system_integrator c
  | Some _ =>
      length (natives c') = S (length (natives c)) /\
      system_integrator c' = Some (length (natives c))
  end.
Proof.
  intros Hrun. destruct (mpcd c) as [sys|] eqn:Hm.
  - assert (Hform : exists eng new,
              c' = with_msg (msg c ++ new) (registered c eng) /\
              (length new <= 1)%nat /\
              (forall obj, r = Returns obj -> new = [])).
    { destruct (aniso_cases a) as [-> | [Hunh | [Hun | [Hnn Hrec]]]].
      - rewrite (construct_None_run _ _ _ _ Hm) in Hrun. injection Hrun as <- <-.
        exists (built_engine sys dt'), [].
        unfold with_msg, registered; cbn. rewrite app_nil_r.
        repeat split; [lia].
      - rewrite (construct_unhashable_run _ _ _ _ _ Hm Hunh) in Hrun.
        injection Hrun as <- <-.
        exists (built_engine sys dt'), [].
        unfold with_msg, registered; cbn. rewrite app_nil_r.
        repeat split; [lia].
      - rewrite (construct_unrecognized_run _ _ _ _ _ Hm Hun) in Hrun.
        injection Hrun as <- <-.
        exists (built_engine sys dt'), [unknown_mode_message a].
        repeat split; [cbn; lia | discriminate].
      - destruct (recognized_mode a Hrec Hnn) as (mode & Hget & _).
        rewrite (construct_recognized_run _ _ _ _ _ _ Hm Hnn Hrec Hget) in Hrun.
        injection Hrun as <- <-.
        exists (setAnisotropicMode mode (built_engine sys dt')), [].
        unfold with_msg, registered; cbn. rewrite app_nil_r.
        repeat split; [lia]. }
    destruct Hform as (eng & new & -> & Hlen & Hnew).
    split.
    { intros k e He. apply (engine_registered_old c k eng e He). }
    split; [cbn; rewrite Hm; repeat split; reflexivity|].
    split; [exists new; repeat split; [exact Hlen | exact Hnew]|].
    split; [apply (length_registered c eng) | reflexivity].
  - rewrite (construct_uninitialized_run _ _ _ _ Hm) in Hrun.
    injection Hrun as <- <-.
    split; [intros k e He; exact He|].
    split; [cbn; rewrite Hm; repeat split; reflexivity|].
    split; [|split; reflexivity].
    exists [mpcd_missing_message]. repeat split; [cbn; lia | discriminate].
Qed.

Lemma construct_frame_witness :
  construct 0.5%float 1 (PStr "anisotropic") (hoomd stale_state)
  = (with_msg [unknown_mode_message (PStr "anisotropic")]
       (registered (hoomd stale_state)
          (new_Integrator 7 0.5%float)),
     Raises (RuntimeError aniso_mode_error)) /\
  engine (with_msg [unknown_mode_message (PStr "anisotropic")]
            (registered (hoomd stale_state) (new_Integrator 7 0.5%float))) 0
  = Some stale_engine /\
  system_integrator
    (with_msg [unknown_mode_message (PStr "anisotropic")]
       (registered (hoomd stale_state) (new_Integrator 7 0.5%float)))
  = Some 1%nat.
Proof.
  split; [reflexivity|].
  pose proof (construct_frame 0.5%float 1 (PStr "anisotropic") (hoomd stale_state)
                _ _ eq_refl) as (Hold & _ & _ & _ & Hsys).
  split; [apply Hold; reflexivity | exact Hsys].
Defined.

(** X7: the only ways construction fails.  It raises the module's
    uninitialized-system error exactly when the context has no MPCD system;
    with one, it raises only for the anisotropy value: the module's error
    for a hashable value that is no key of the mode table, the membership
    test's [TypeError] for an unhashable one.  The initialization check of
    the [set_params] call on line 56 never fails. *)
Theorem construct_raises_only
    (dt' : float) (period' : Z) (a : pyval) (c c' : context) (e : exn) :
  construct dt' period' a c = (c', Raises e) ->
  (e = RuntimeError mpcd_not_initialized /\ mpcd c = None) \/
  (e = RuntimeError aniso_mode_error /\ unrecognized a /\ is_Some (mpcd c)) \/
  (e = TypeError "unhashable type: 'list'" /\ hashable a = false /\
   is_Some (mpcd c)).
Proof.
  intros Hrun. destruct (mpcd c) as [sys|] eqn:Hm.
  - destruct (aniso_cases a) as [-> | [Hunh | [Hun | [Hnn Hrec]]]].
    + rewrite (construct_None_run _ _ _ _ Hm) in Hrun. discriminate Hrun.
    + rewrite (construct_unhashable_run _ _ _ _ _ Hm Hunh) in Hrun.
      injection Hrun as _ <-. right; right. repeat split; [exact Hunh | eauto].
    + rewrite (construct_unrecognized_run _ _ _ _ _ Hm Hun) in Hrun.
      injection Hrun as _ <-. right; left. repeat split; [exact Hun | eauto].
    + destruct (recognized_mode a Hrec Hnn) as (mode & Hget & _).
      rewrite (construct_recognized_run _ _ _ _ _ _ Hm Hnn Hrec Hget) in Hrun.
      discriminate Hrun.
  - rewrite (construct_uninitialized_run _ _ _ _ Hm) in Hrun.
    injection Hrun as _ <-. left. split; reflexivity.
Qed.

Lemma construct_raises_only_witness :
  construct 0.5%float 1 (PList [PBool true]) sample_context
  = (registered sample_context (new_Integrator 7 0.5%float),
     Raises (TypeError "unhashable type: 'list'")) /\
  ((TypeError "unhashable type: 'list'" = RuntimeError mpcd_not_initialized /\
    mpcd sample_context = None) \/
   (TypeError "unhashable type: 'list'" = RuntimeError aniso_mode_error /\
    unrecognized (PList [PBool true]) /\ is_Some (mpcd sample_context)) \/
   (TypeError "unhashable type: 'list'" = TypeError "unhashable type: 'list'" /\
    hashable (PList [PBool true]) = false /\ is_Some (mpcd sample_context))).
Proof.
  split; [reflexivity|].
  apply (construct_raises_only 0.5%float 1 (PList [PBool true]) sample_context
           (registered sample_context (new_Integrator 7 0.5%float))).
  reflexivity.
Defined.

(** X8: the engine a returning construction leaves.  It is built on the MPCD
    system's particle data and carries its communicator when there is one;
    its anisotropy mode is the table's mode for the [aniso] argument, or the
    mode a new native integrator starts in when [aniso] is [None]; its
    method list is empty and it has neither strategy attached: the default
    streaming object is held by the controller's [_stream] slot only and
    reaches the engine at the first [update_methods].  The controller keeps
    the three arguments as its attributes, and nothing is logged. *)
Theorem construct_engine_state
    (dt' : float) (period' : Z) (a : pyval) (c c' : context) (obj : integrator) :
  construct dt' period' a c = (c', Returns obj) ->
  exists sys h eng mode,
    mpcd c = Some sys /\
    cpp_integrator obj = Some h /\
    engine c' h = Some eng /\
    dict_getitem _aniso_modes a = Returns mode /\
    sysdata eng = data sys /\
    mpcd_comm eng = comm sys /\
    anisotropic_mode eng =
      (if is_None a then anisotropic_mode (new_Integrator (data sys) dt') else mode) /\
    methods eng = [] /\
    streaming eng = None /\
    collision eng = None /\
    is_Some (_stream obj) /\
    (dt obj = dt' /\ period obj = period' /\ aniso obj = a /\
     supports_methods obj = true) /\
    msg c' = msg c.
Proof.
  intros Hrun.
  destruct (construct_returns_form _ _ _ _ _ _ Hrun) as (sys & mode & Hm & Hget & -> & ->).
  exists sys, (length (natives c)),
    (if is_None a then built_engine sys dt'
     else setAnisotropicMode mode (built_engine sys dt')), mode.
  split; [exact Hm|]. split; [reflexivity|].
  split; [apply engine_registered_new|]. split; [exact Hget|].
  unfold built_engine.
  destruct (is_None a), (comm sys); cbn;
    repeat split; eauto.
Qed.

Lemma construct_engine_state_witness :
  construct 0.5%float 1 (PBool true) sample_context
  = (hoomd sample_state, Returns (self sample_state)) /\
  exists sys h eng mode,
    mpcd sample_context = Some sys /\
    cpp_integrator (self sample_state) = Some h /\
    engine (hoomd sample_state) h = Some eng /\
    dict_getitem _aniso_modes (PBool true) = Returns mode /\
    sysdata eng = data sys /\
    mpcd_comm eng = comm sys /\
    anisotropic_mode eng = mode /\
    methods eng = [] /\
    streaming eng = None /\
    collision eng = None /\
    is_Some (_stream (self sample_state)) /\
    (dt (self sample_state) = 0.5%float /\ period (self sample_state) = 1 /\
     aniso (self sample_state) = PBool true /\
     supports_methods (self sample_state) = true) /\
    msg (hoomd sample_state) = msg sample_context.
Proof.
  split; [reflexivity|].
  apply (construct_engine_state 0.5%float 1 (PBool true) sample_context
           (hoomd sample_state) (self sample_state)).
  reflexivity.
Defined.

(** X9: the first reconciliation after a returning construction.  Run on the
    new controller, [update_methods] returns; the engine then lists the
    context's active methods in order and has the default streaming object
    attached, of the class the device flag selects and with the given
    period, and no collision strategy; the one message it emits is the
    collision warning. *)
Theorem construct_then_update_methods
    (dt' : float) (period' : Z) (a : pyval) (c c' : context) (obj : integrator) :
  construct dt' period' a c = (c', Returns obj) ->
  exists st' h eng sm,
    update_methods {| self := obj; hoomd := c' |} = (st', Returns tt) /\
    cpp_integrator obj = Some h /\
    system_integrator (hoomd st') = Some h /\
    engine (hoomd st') h = Some eng /\
    methods eng = map cpp_method (integration_methods c) /\
    streaming eng = Some sm /\
    _stream obj = Some sm /\
    stream_cls sm = (if cuda_enabled c then StreamingMethodGPU else StreamingMethod) /\
    stream_period sm = period' /\
    collision eng = None /\
    deltaT eng = dt' /\
    msg (hoomd st') = (msg c ++ [collision_warning])%list.
Proof.
  intros Hrun.
  destruct (construct_returns_form _ _ _ _ _ _ Hrun) as (sys & mode & Hm & Hget & -> & ->).
  set (eng0 := if is_None a then built_engine sys dt'
               else setAnisotropicMode mode (built_engine sys dt')).
  assert (Hact : active {| self := constructed_object dt' period' a c sys;
                           hoomd := registered c eng0 |} (length (natives c)))
    by reflexivity.
  rewrite (update_methods_run _ _ Hact).
  eexists _, (length (natives c)), _, (default_stream c sys period').
  split; [reflexivity|]. cbn [self hoomd]. unfold engine.
  cbn [natives system_integrator msg registered constructed_object
       _stream _collide integration_methods cpp_integrator].
  split; [reflexivity|]. split; [reflexivity|].
  rewrite alter_last.
  split; [apply lookup_last|].
  cbn [reconciled methods streaming collision deltaT].
  repeat split.
  unfold eng0, built_engine.
  destruct (is_None a), (comm sys); reflexivity.
Qed.

Lemma construct_then_update_methods_witness :
  construct 0.5%float 1 (PBool true) sample_context
  = (hoomd sample_state, Returns (self sample_state)) /\
  exists st' h eng sm,
    update_methods {| self := self sample_state; hoomd := hoomd sample_state |}
    = (st', Returns tt) /\
    cpp_integrator (self sample_state) = Some h /\
    system_integrator (hoomd st') = Some h /\
    engine (hoomd st') h = Some eng /\
    methods eng = [3%nat; 1%nat] /\
    streaming eng = Some sm /\
    _stream (self sample_state) = Some sm /\
    stream_cls sm = StreamingMethod /\
    stream_period sm = 1 /\
    collision eng = None /\
    deltaT eng = 0.5%float /\
    msg (hoomd st') = [collision_warning].
Proof.
  split; [reflexivity|].
  apply (construct_then_update_methods 0.5%float 1 (PBool true) sample_context
           (hoomd sample_state) (self sample_state)).
  reflexivity.
Defined.

(** ** How the calls compose *)

Lemma after_dt_overwrite (new_dt : option float) (d : float) (h : nat) (st : state) :
  after_dt (Some d) h (after_dt new_dt h st) = after_dt (Some d) h st.
Proof.
  destruct new_dt as [d1|]; [|reflexivity].
  cbn [after_dt self hoomd].
  rewrite with_natives_twice, natives_with_natives, list_alter_alter_eq.
  reflexivity.
Qed.

(** X10: a later time step replaces an earlier one without trace.  In every
    state, a call of [set_params] that gives a time step, run after a call
    that set only the time step, ends in the same state with the same
    outcome as that call run alone, whatever its anisotropy argument. *)
Theorem set_params_later_dt_wins
    (new_dt : option float) (d : float) (a : pyval) (st : state) :
  set_params (Some d) a (fst (set_params new_dt PNone st)) =
  set_params (Some d) a st.
Proof.
  destruct (cpp_integrator (self st)) as [h|] eqn:Hh.
  - rewrite (set_params_None_run new_dt st h Hh). cbn [fst].
    rewrite (set_params_dt_run (Some d) a _ h (active_after_dt new_dt h st Hh)).
    rewrite (set_params_dt_run (Some d) a st h Hh).
    rewrite after_dt_overwrite. reflexivity.
  - rewrite (set_params_inactive new_dt PNone st Hh). reflexivity.
Qed.

(** X11: repeating a call of [set_params] that succeeds changes nothing
    more.  On every state and for every anisotropy value the mode table
    knows, the same call run a second time returns again and leaves the
    state the first call left. *)
Theorem set_params_repeat
    (new_dt : option float) (a : pyval) (st : state) :
  recognized a ->
  set_params new_dt a (fst (set_params new_dt a st)) =
  (fst (set_params new_dt a st), snd (set_params new_dt a st)).
Proof.
  intros Hrec.
  destruct (cpp_integrator (self st)) as [h|] eqn:Hh.
  - destruct (is_None a) eqn:Hnn.
    + destruct a; try discriminate.
      rewrite (set_params_None_run new_dt st h Hh). cbn [fst snd].
      rewrite (set_params_None_run new_dt _ h (active_after_dt new_dt h st Hh)).
      destruct new_dt as [d|]; [|reflexivity].
      rewrite after_dt_overwrite. reflexivity.
    + destruct (recognized_mode a Hrec Hnn) as (mode & Hget & _).
      rewrite (set_params_recognized_run new_dt a st h mode Hh Hnn Hrec Hget).
      cbn [fst snd].
      erewrite (set_params_recognized_run new_dt a _ h mode _ Hnn Hrec Hget).
      f_equal.
      destruct new_dt as [d|]; cbn [after_dt self hoomd];
        rewrite ?with_natives_twice, ?natives_with_natives, ?list_alter_alter_eq;
        reflexivity.
  - rewrite (set_params_inactive new_dt a st Hh). cbn [fst snd].
    apply (set_params_inactive new_dt a st Hh).
  Unshelve.
  destruct new_dt; exact Hh.
Qed.

Lemma set_params_repeat_witness :
  recognized (PFloat 0%float) /\
  set_params (Some 0.25%float) (PFloat 0%float)
    (fst (set_params (Some 0.25%float) (PFloat 0%float) stale_state)) =
  (fst (set_params (Some 0.25%float) (PFloat 0%float) stale_state),
   snd (set_params (Some 0.25%float) (PFloat 0%float) stale_state)).
Proof.
  split; [reflexivity|].
  apply (set_params_repeat (Some 0.25%float) (PFloat 0%float) stale_state).
  reflexivity.
Defined.

Lemma active_after_update (st : state) (h : nat) :
  active st h -> active (fst (update_methods st)) h.
Proof. intros Hact. rewrite (update_methods_run st h Hact). exact Hact. Qed.

(** [update_methods] runs on the state in the goal, which is Active. *)
Ltac run_update h H :=
  match goal with
  | |- context [update_methods ?S] => rewrite (update_methods_run S h H)
  end.

(** Both orders have run; what is left is to compare the engines. *)
Ltac compare_orders new_dt :=
  cbn [fst snd]; destruct new_dt;
  cbn [after_dt self hoomd natives system_integrator integration_methods
       with_natives with_msg with_dt with_aniso _stream _collide];
  rewrite ?list_alter_alter_eq;
  repeat split;
  first [reflexivity | apply list_alter_ext; [intros x _|]; reflexivity].

(** X12: [set_params] and [update_methods] do not interfere.  In every
    state and for every argument of [set_params], running [set_params] and
    then [update_methods] leaves the same controller, the same native store
    and the same system integrator as running them in the other order, and
    each call has the outcome it has when run first.  (The message log may
    differ in the order of its entries.) *)
Theorem set_params_update_methods_commute
    (new_dt : option float) (a : pyval) (st : state) :
  let params_first := update_methods (fst (set_params new_dt a st)) in
  let update_first := set_params new_dt a (fst (update_methods st)) in
  self (fst params_first) = self (fst update_first) /\
  natives (hoomd (fst params_first)) = natives (hoomd (fst update_first)) /\
  system_integrator (hoomd (fst params_first)) =
    system_integrator (hoomd (fst update_first)) /\
  snd params_first = snd (update_methods st) /\
  snd update_first = snd (set_params new_dt a st).
Proof.
  cbv zeta.
  destruct (cpp_integrator (self st)) as [h|] eqn:Hh.
  - pose proof (active_after_update st h Hh) as Hup.
    pose proof (active_after_dt new_dt h st Hh) as Hdt.
    destruct (aniso_cases a) as [-> | [Hunh | [Hun | [Hnn Hrec]]]].
    + rewrite (set_params_None_run new_dt st h Hh).
      rewrite (set_params_None_run new_dt (fst (update_methods st)) h Hup).
      rewrite (update_methods_run st h Hh). cbn [fst snd].
      run_update h Hdt. compare_orders new_dt.
    + rewrite (set_params_unhashable_run new_dt a st h Hh Hunh).
      rewrite (set_params_unhashable_run new_dt a (fst (update_methods st)) h Hup Hunh).
      rewrite (update_methods_run st h Hh). cbn [fst snd].
      run_update h Hdt. compare_orders new_dt.
    + rewrite (set_params_unrecognized_run new_dt a st h Hh Hun).
      rewrite (set_params_unrecognized_run new_dt a (fst (update_methods st)) h Hup Hun).
      rewrite (update_methods_run st h Hh). cbn [fst snd].
      run_update h Hdt. compare_orders new_dt.
    + destruct (recognized_mode a Hrec Hnn) as (mode & Hget & _).
      rewrite (set_params_recognized_run new_dt a st h mode Hh Hnn Hrec Hget).
      rewrite (set_params_recognized_run new_dt a (fst (update_methods st)) h mode
                 Hup Hnn Hrec Hget).
      rewrite (update_methods_run st h Hh). cbn [fst snd].
      run_update h Hdt. compare_orders new_dt.
  - rewrite (update_methods_inactive st Hh). cbn [fst snd].
    rewrite (set_params_inactive new_dt a st Hh). cbn [fst snd].
    rewrite (update_methods_inactive st Hh). repeat split; reflexivity.
Qed.

Example set_params_then_update_on_stale_state :
  engine (hoomd (fst (update_methods
                        (fst (set_params (Some 0.25%float) (PBool false) stale_state))))) 0
  = Some {| sysdata := 7%nat; deltaT := 0.25%float; mpcd_comm := None;
            anisotropic_mode := Isotropic; methods := [3%nat; 1%nat];
            streaming := _stream (self stale_state); collision := None |}.
Proof. reflexivity. Qed.

(** ** The documented argument type *)

(** X13: the documented use, [aniso] a bool.  On an Active controller
    [set_params(aniso=b)] returns for both booleans, stores [b] and sets the
    engine's mode to anisotropic for [True] and isotropic for [False]; and a
    construction with [aniso=b] in a context with an MPCD system returns a
    controller whose engine is in that mode. *)
Theorem bool_aniso_selects_mode
    (b : bool) (st : state) (h : nat) (eng : Integrator)
    (dt' : float) (period' : Z) (c : context) (sys : mpcd_system) :
  active st h ->
  engine (hoomd st) h = Some eng ->
  mpcd c = Some sys ->
  (exists st',
     set_params None (PBool b) st = (st', Returns tt) /\
     aniso (self st') = PBool b /\
     anisotropic_mode <$> engine (hoomd st') h =
       Some (if b then Anisotropic else Isotropic)) /\
  (exists c' obj k,
     construct dt' period' (PBool b) c = (c', Returns obj) /\
     aniso obj = PBool b /\
     cpp_integrator obj = Some k /\
     anisotropic_mode <$> engine c' k =
       Some (if b then Anisotropic else Isotropic)).
Proof.
  intros Hact Heng Hm.
  assert (Hget : dict_getitem _aniso_modes (PBool b)
                 = Returns (if b then Anisotropic else Isotropic))
    by (destruct b; reflexivity).
  assert (Hrec : recognized (PBool b)) by (destruct b; reflexivity).
  split.
  - rewrite (set_params_recognized_run None (PBool b) st h _ Hact eq_refl Hrec Hget).
    eexists. split; [reflexivity|]. split; [reflexivity|].
    unfold engine in *. cbn [hoomd after_dt].
    rewrite natives_with_natives, list_lookup_alter_eq, Heng. reflexivity.
  - rewrite (construct_recognized_run dt' period' (PBool b) c sys _ Hm eq_refl Hrec Hget).
    eexists _, _, (length (natives c)).
    split; [reflexivity|]. split; [reflexivity|]. split; [reflexivity|].
    rewrite engine_registered_new. reflexivity.
Qed.

Lemma bool_aniso_selects_mode_witness :
  active stale_state 0 /\
  engine (hoomd stale_state) 0 = Some stale_engine /\
  mpcd sample_context = Some {| data := 7%nat; comm := None |} /\
  (exists st',
     set_params None (PBool false) stale_state = (st', Returns tt) /\
     aniso (self st') = PBool false /\
     anisotropic_mode <$> engine (hoomd st') 0 = Some Isotropic) /\
  (exists c' obj k,
     construct 0.5%float 1 (PBool false) sample_context = (c', Returns obj) /\
     aniso obj = PBool false /\
     cpp_integrator obj = Some k /\
     anisotropic_mode <$> engine c' k = Some Isotropic).
Proof.
  split; [reflexivity|]. split; [reflexivity|]. split; [reflexivity|].
  apply (bool_aniso_selects_mode false stale_state 0 stale_engine
           0.5%float 1 sample_context {| data := 7%nat; comm := None |});
    reflexivity.
Defined.
